(** * FER: the per-frame detection / classification / aggregation pipeline

    A shallow embedding of [fer_core.py] (class [FEREngine]) and of the
    history and statistics part of [live_camera_app.py] (class
    [LiveCameraFER]), with the properties of the pipeline proved over it.

    Modelling choices, all following the Python source:
    - a Python [dict] is insertion ordered; it is an association list with
      distinct keys ([dict_get], [dict_set]); two dicts are equal in Python's
      sense ([==]) when they have the same lookups ([dict_same]);
    - probabilities are Python floats; they are modelled by the rationals [Q]
      (exact arithmetic, [==] is [Qeq]);
    - a frame is a numpy array of shape (h, w, 3): an [ndarray], a list of
      rows of BGR pixels.  Arrays live in a [store] and are passed by
      reference ([loc]), because OpenCV's drawing functions write into the
      array they are given.  A crop [frame[y0:y1, x0:x1]] is a view; it is
      read at once and never written, so it is modelled by its content;
    - exceptions are values: a computation returns [Ok v] or [Raise e];
    - the points given to [cv2.rectangle] and [cv2.putText] are C [int]s: a
      call with a coordinate outside their range raises [cv2.error] and
      writes nothing;
    - the collaborators the source calls but does not define (MediaPipe's
      face detector, DeepFace's classifier, the rasterisation of OpenCV's
      drawing primitives, the wall clock) are the fields of the class
      [Collaborators]; the engine is stated for any instance of it.
      Logging ([self.logger.error], [st.error]) is left out. *)

From Stdlib Require Import Ascii String QArith Qround ZArith Lia Lqa Permutation.
From stdpp Require Import gmap strings list fin_maps.

Open Scope Q_scope.

(** ** Python values *)

(** An insertion-ordered [dict] with string keys. *)
Abbreviation pydict V := (list (string * V)).

(** [d.get(k)] *)
Fixpoint dict_get {V} (k : string) (d : pydict V) : option V :=
  match d with
  | [] => None
  | (k', v) :: d' => if decide (k' = k) then Some v else dict_get k d'
  end.

(** [d[k] = v]: an existing key keeps its position, a new key goes last. *)
Fixpoint dict_set {V} (k : string) (v : V) (d : pydict V) : pydict V :=
  match d with
  | [] => [(k, v)]
  | (k', v') :: d' =>
      if decide (k' = k) then (k', v) :: d' else (k', v') :: dict_set k v d'
  end.

Definition dict_keys {V} (d : pydict V) : list string := d.*1.
Definition dict_values {V} (d : pydict V) : list V := d.*2.

(** Python's [d1 == d2] on dicts: the same keys with the same values. *)
Definition dict_same {V} (d1 d2 : pydict V) : Prop :=
  forall k, dict_get k d1 = dict_get k d2.

(** [counts[k] = counts.get(k, 0) + 1] *)
Definition count_one (counts : pydict Z) (k : string) : pydict Z :=
  dict_set k (default 0 (dict_get k counts) + 1)%Z counts.

(** [{k: count/total for k, count in counts.items()}], with true division. *)
Definition fractions (total : Z) (counts : pydict Z) : pydict Q :=
  map (fun kc => (kc.1, inject_Z kc.2 / inject_Z total)) counts.

(** [x < y] on floats, as a boolean. *)
Definition Qltb (x y : Q) : bool := negb (Qle_bool y x).

(** [sum(xs)]: starts from 0 and adds from the left. *)
Definition pysum (xs : list Q) : Q := fold_left Qplus xs 0.

(** [int(x)]: truncation toward zero. *)
Definition pyint (x : Q) : Z := Z.quot (Qnum x) (Z.pos (Qden x)).

(** [max(items, key=key)]: the first item among those of greatest key; the
    running best is replaced only by a strictly greater one. *)
Fixpoint max_from {A} (key : A -> Q) (best : A) (items : list A) : A :=
  match items with
  | [] => best
  | x :: items' => max_from key (if Qltb (key best) (key x) then x else best) items'
  end.

(** [collections.deque(maxlen=n).append(x)]: the item is added on the right,
    and when the deque is then longer than [maxlen] the leftmost item is
    dropped. *)
Definition deque_append {A} (maxlen : nat) (d : list A) (x : A) : list A :=
  let d' := d ++ [x] in
  if (maxlen <? length d')%nat then drop 1 d' else d'.

(** Exceptions of the modelled code. *)
Inductive exn : Type :=
  | Cv2Error          (* cv2.error, e.g. cvtColor on an empty image *)
  | DetectorError     (* raised inside MediaPipe's face detector *)
  | ClassifierError   (* raised inside DeepFace.analyze *)
  | IndexError        (* result[0] on an empty list *)
  | AttributeError    (* result.get on None *)
  | InvalidReference. (* a reference that is not in the store *)

Inductive result (A : Type) : Type :=
  | Ok (a : A)
  | Raise (e : exn).
Arguments Ok {A} a.
Arguments Raise {A} e.

#[global] Instance result_ret : MRet result := fun A a => Ok a.

#[global] Instance result_bind : MBind result := fun A B k m =>
  match m with
  | Ok a => k a
  | Raise e => Raise e
  end.

(** [try: body / except Exception: handler] *)
Definition try_except {A} (body : result A) (handler : exn -> result A) : result A :=
  match body with
  | Ok a => Ok a
  | Raise e => handler e
  end.

(** ** Frames *)

(** A pixel in OpenCV's channel order (blue, green, red). *)
Definition pixel : Type := Z * Z * Z.

(** A numpy array of shape (h, w, 3): h rows of w pixels. *)
Definition ndarray : Type := list (list pixel).

(** [frame.shape]: (h, w). *)
Definition shape (f : ndarray) : Z * Z :=
  (Z.of_nat (length f),
   match f with [] => 0%Z | row :: _ => Z.of_nat (length row) end).

(** A bound of a Python slice [a:b] on a sequence of length [n]: a negative
    bound counts from the end, and bounds are clipped to [0, n]. *)
Definition slice_bound (n : nat) (i : Z) : nat :=
  Z.to_nat (Z.min (Z.of_nat n) (if (i <? 0)%Z then Z.max 0 (i + Z.of_nat n) else i)).

(** [xs[a:b]] *)
Definition pyslice {A} (a b : Z) (xs : list A) : list A :=
  let lo := slice_bound (length xs) a in
  let hi := slice_bound (length xs) b in
  take (hi - lo) (drop lo xs).

(** [frame[y0:y1, x0:x1]] *)
Definition crop (f : ndarray) (y0 y1 x0 x1 : Z) : ndarray :=
  map (pyslice x0 x1) (pyslice y0 y1 f).

(** [cv2.cvtColor(img, cv2.COLOR_BGR2RGB)]: a new array with the channels
    swapped; OpenCV raises on an image without pixels. *)
Definition swap_channels (p : pixel) : pixel :=
  let '(b, g, r) := p in (r, g, b).

Definition is_empty_image (f : ndarray) : bool :=
  match shape f with (h, w) => (h =? 0)%Z || (w =? 0)%Z end.

Definition cvtColor_BGR2RGB (f : ndarray) : result ndarray :=
  if is_empty_image f then Raise Cv2Error else Ok (map (map swap_channels) f).

(** Painting: every pixel of the mask that lies in the frame takes the
    colour; pixels of the mask outside the frame are clipped. *)
Definition mask : Type := Z -> Z -> bool. (* column, row *)

Definition paint (m : mask) (colour : pixel) (f : ndarray) : ndarray :=
  imap (fun r row =>
          imap (fun c p => if m (Z.of_nat c) (Z.of_nat r) then colour else p) row) f.

Definition green : pixel := (0, 255, 0)%Z.
Definition white : pixel := (255, 255, 255)%Z.

(** ** The emotion taxonomy and mapper ([FEREngine.__init__]) *)

Definition emotion_labels : list string :=
  ["angry"; "disgust"; "fear"; "happy"; "sad"; "surprise"; "neutral"]%string.

Definition emotion_mapping : pydict string :=
  [("angry", "anger"); ("disgust", "disgust"); ("fear", "frustration");
   ("happy", "happy"); ("sad", "sad"); ("surprise", "surprise");
   ("neutral", "neutral")]%string.

(** [self.emotion_mapping.get(emotion, emotion)] *)
Definition map_label (emotion : string) : string :=
  default emotion (dict_get emotion emotion_mapping).

(** A probability distribution over labels, as DeepFace or the engine
    returns it. *)
Abbreviation dist := (pydict Q).

(** One iteration of the mapping loop of [analyze_emotion]:
    [mapped_emotions[mapped] += prob] when the key is there already,
    [mapped_emotions[mapped] = prob] otherwise. *)
Definition merge_label (mapped_emotions : dist) (item : string * Q) : dist :=
  let mapped_emotion := map_label item.1 in
  match dict_get mapped_emotion mapped_emotions with
  | Some v => dict_set mapped_emotion (v + item.2) mapped_emotions
  | None => dict_set mapped_emotion item.2 mapped_emotions
  end.

Definition merge_labels (emotions : dist) : dist :=
  fold_left merge_label emotions [].

(** The mapping and normalisation part of [analyze_emotion]: the loop over
    [emotions.items()], then the division by the total, which is guarded by
    [if total_prob > 0]. *)
Definition remap_distribution (emotions : dist) : dist :=
  let mapped_emotions := merge_labels emotions in
  let total_prob := pysum (dict_values mapped_emotions) in
  if Qltb 0 total_prob
  then map (fun kv => (kv.1, kv.2 / total_prob)) mapped_emotions
  else mapped_emotions.

(** ** The collaborators *)

(** A detection's [location_data.relative_bounding_box]: coordinates relative
    to the frame's width and height. *)
Record relative_bounding_box : Type := RelBox {
  xmin : Q;
  ymin : Q;
  width : Q;
  height : Q
}.

(** What [DeepFace.analyze] returns: a dict, or a list of dicts.  Of a result
    dict only the entry under ['emotion'] is read: [Some emotions] when the
    key is there, [None] when it is not. *)
Inductive deepface_result : Type :=
  | ResultDict (emotion : option dist)
  | ResultList (results : list (option dist))
  | ResultNone.

(** The libraries the engine calls.  Nothing is assumed about them. *)
Class Collaborators : Type := {
  (** [self.face_detection.process(rgb_frame).detections]: [None] or a list
      of detections, unless the detector raises. *)
  face_detection_process : ndarray -> result (option (list relative_bounding_box));
  (** [DeepFace.analyze(face_img, actions=['emotion'], ...)] *)
  DeepFace_analyze : ndarray -> result deepface_result;
  (** The pixels [cv2.rectangle] covers, from its two corners and thickness. *)
  rectangle_mask : Z * Z -> Z * Z -> Z -> mask;
  (** The pixels [cv2.putText] covers with FONT_HERSHEY_SIMPLEX, from the
      text, its origin, the font scale and the thickness. *)
  text_mask : string -> Z * Z -> Q -> Z -> mask;
  (** The format specification [:.2f]. *)
  format_2f : Q -> string;
  (** [time.time()] at its n-th call. *)
  time_time : nat -> Q
}.

(** [s.upper()] on ASCII text. *)
Definition upper_ascii (c : ascii) : ascii :=
  let n := nat_of_ascii c in
  if (97 <=? n)%nat && (n <=? 122)%nat then ascii_of_nat (n - 32) else c.

Fixpoint upper (s : string) : string :=
  match s with
  | EmptyString => EmptyString
  | String c s' => String (upper_ascii c) (upper s')
  end.

(** References to arrays, and the store they point into. *)
Definition loc : Type := nat.
Abbreviation store := (gmap loc ndarray).

Definition read (σ : store) (l : loc) : result ndarray :=
  match σ !! l with
  | Some f => Ok f
  | None => Raise InvalidReference
  end.

(** The drawing calls take their points as pairs of C [int]: a Python
    integer outside that range is refused with [cv2.error] when the
    arguments are read, before anything is written. *)
Definition fits_c_int (v : Z) : bool :=
  (-2147483648 <=? v)%Z && (v <=? 2147483647)%Z.

Definition is_point (pt : Z * Z) : bool := fits_c_int pt.1 && fits_c_int pt.2.

(** [cv2.rectangle(img, pt1, pt2, color, thickness)] writes into [img]. *)
Definition cv2_rectangle `{Collaborators} (σ : store) (img : loc)
    (pt1 pt2 : Z * Z) (colour : pixel) (thickness : Z) : result store :=
  if is_point pt1 && is_point pt2
  then Ok (alter (paint (rectangle_mask pt1 pt2 thickness) colour) img σ)
  else Raise Cv2Error.

(** [cv2.putText(img, text, org, FONT_HERSHEY_SIMPLEX, scale, color, thickness)]
    writes into [img]. *)
Definition cv2_putText `{Collaborators} (σ : store) (img : loc)
    (text : string) (org : Z * Z) (scale : Q) (colour : pixel) (thickness : Z)
    : result store :=
  if is_point org
  then Ok (alter (paint (text_mask text org scale thickness) colour) img σ)
  else Raise Cv2Error.

(** ** [class FEREngine] *)

Module FEREngine.

(** A bounding box (x, y, width, height) in pixels. *)
Definition pixel_box : Type := Z * Z * Z * Z.

(** An element of the list [process_frame] returns. *)
Record face_result : Type := FaceResult {
  bbox : pixel_box;
  emotions : dist;
  dominant_emotion : string
}.

(** What a sequence of drawing calls leaves: the store, and the exception
    if one of them raised. *)
Definition drawing : Type := store * result unit.

Section Engine.
Context `{Collaborators}.

(** The box of one detection, in pixels of a frame of shape (h, w). *)
Definition to_pixels (h w : Z) (bbox : relative_bounding_box) : pixel_box :=
  let x := pyint (xmin bbox * inject_Z w) in
  let y := pyint (ymin bbox * inject_Z h) in
  let width := pyint (width bbox * inject_Z w) in
  let height := pyint (height bbox * inject_Z h) in
  (x, y, width, height).

Definition detect_faces (σ : store) (frame : loc) : result (list pixel_box) :=
  f ← read σ frame;
  rgb_frame ← cvtColor_BGR2RGB f;
  detections ← face_detection_process rgb_frame;
  let face_boxes :=
    match detections with
    | Some detections => map (fun detection => to_pixels (shape f).1 (shape f).2 detection) detections
    | None => []
    end in
  Ok face_boxes.

(** The body of the [try] of [analyze_emotion].  A frame has three
    dimensions, so the conversion to RGB always runs. *)
Definition analyze_emotion_body (face_img : ndarray) : result dist :=
  face_img ← cvtColor_BGR2RGB face_img;
  result ← DeepFace_analyze face_img;
  result ← match result with
           | ResultList (r :: _) => Ok r
           | ResultList [] => Raise IndexError
           | ResultDict r => Ok r
           | ResultNone => Raise AttributeError
           end;
  let emotions := default [] result in
  Ok (remap_distribution emotions).

(** [except Exception as e]: the error is logged and [{}] returned. *)
Definition analyze_emotion (face_img : ndarray) : result dist :=
  try_except (analyze_emotion_body face_img) (fun e => Ok []).

(** [max(emotions.items(), key=lambda x: x[1])[0] if emotions else 'neutral'] *)
Definition dominant (emotions : dist) : string :=
  match emotions with
  | [] => "neutral"
  | item :: items => (max_from snd item items).1
  end.

(** The lines of probabilities drawn under a box, 20 pixels apart: the
    store as the loop leaves it, and the exception if a call raised. *)
Fixpoint draw_probabilities (frame : loc) (x : Z) (emotions : dist)
    (σ : store) (y_offset : Z) : drawing :=
  match emotions with
  | [] => (σ, Ok tt)
  | (emotion, prob) :: emotions' =>
      let text := (emotion ++ ": " ++ format_2f prob)%string in
      match cv2_putText σ frame text (x, y_offset) 0.6 white 1 with
      | Raise e => (σ, Raise e)
      | Ok σ => draw_probabilities frame x emotions' σ (y_offset + 20)%Z
      end
  end.

(** [face_roi = frame[y:y+h, x:x+w]] *)
Definition face_roi (f : ndarray) (box : pixel_box) : ndarray :=
  let '(x, y, w, h) := box in
  crop f y (y + h) x (x + w).

(** The drawing of one result into the array [frame] refers to: the box,
    the dominant emotion above it, the probabilities below it.  The calls
    stand outside any [try]: the first that raises ends the drawing, and
    what was drawn before stays. *)
Definition draw_result (σ : store) (frame : loc) (result : face_result) : drawing :=
  let '(x, y, w, h) := bbox result in
  match cv2_rectangle σ frame (x, y) (x + w, y + h)%Z green 2 with
  | Raise e => (σ, Raise e)
  | Ok σ =>
      let emotion_text := upper (dominant_emotion result) in
      match cv2_putText σ frame emotion_text (x, y - 10)%Z 0.9 green 2 with
      | Raise e => (σ, Raise e)
      | Ok σ =>
          let y_offset := (y + h + 20)%Z in
          draw_probabilities frame x (emotions result) σ y_offset
      end
  end.

(** The body of the loop of [process_frame] for one box: the result it
    appends, and the store after its drawing. *)
Definition process_face (σ : store) (frame : loc) (box : pixel_box)
    : store * result face_result :=
  match read σ frame with
  | Raise e => (σ, Raise e)
  | Ok f =>
      match analyze_emotion (face_roi f box) with
      | Raise e => (σ, Raise e)
      | Ok emotions =>
          let result := FaceResult box emotions (dominant emotions) in
          match draw_result σ frame result with
          | (σ', Ok _) => (σ', Ok result)
          | (σ', Raise e) => (σ', Raise e)
          end
      end
  end.

(** [for (x, y, w, h) in face_boxes: ...] *)
Fixpoint process_faces (σ : store) (frame : loc) (face_boxes : list pixel_box)
    (results : list face_result) : store * result (list face_result) :=
  match face_boxes with
  | [] => (σ, Ok results)
  | box :: face_boxes' =>
      match process_face σ frame box with
      | (σ', Ok r) => process_faces σ' frame face_boxes' (results ++ [r])
      | (σ', Raise e) => (σ', Raise e)
      end
  end.

(** [process_frame] returns the reference [frame] it was given, and the
    results. *)
Definition process_frame (σ : store) (frame : loc)
    : store * result (loc * list face_result) :=
  match detect_faces σ frame with
  | Raise e => (σ, Raise e)
  | Ok face_boxes =>
      match process_faces σ frame face_boxes [] with
      | (σ', Ok results) => (σ', Ok (frame, results))
      | (σ', Raise e) => (σ', Raise e)
      end
  end.

End Engine.

Definition get_emotion_statistics (results : list face_result) : pydict Q :=
  let total_detections := Z.of_nat (length results) in
  if (total_detections =? 0)%Z then []
  else
    let emotion_counts :=
      fold_left (fun emotion_counts result => count_one emotion_counts (dominant_emotion result))
                results [] in
    fractions total_detections emotion_counts.

End FEREngine.

(** ** [class LiveCameraFER] *)

Module LiveCameraFER.

(** An element of [self.emotion_history]. *)
Record history_entry : Type := HistoryEntry {
  emotion : string;
  confidence : Q;
  timestamp : Q
}.

(** [deque(maxlen=100)] *)
Definition history_maxlen : nat := 100.

(** The part of the object the pipeline reads and writes: the history, and
    how many times the clock has been read. *)
Record app_state : Type := AppState {
  emotion_history : list history_entry;
  time_calls : nat
}.

(** [__init__] *)
Definition init : app_state := AppState [] 0.

Section App.
Context `{Collaborators}.

(** [max(result['emotions'].values()) if result['emotions'] else 0] *)
Definition confidence_of (emotions : dist) : Q :=
  match dict_values emotions with
  | [] => 0
  | v :: vs => max_from id v vs
  end.

(** The entry appended for one result. *)
Definition entry_of (result : FEREngine.face_result) (now : Q) : history_entry :=
  HistoryEntry (FEREngine.dominant_emotion result)
               (confidence_of (FEREngine.emotions result))
               now.

(** [self.emotion_history.append({...})] *)
Definition record_result (app : app_state) (result : FEREngine.face_result) : app_state :=
  AppState
    (deque_append history_maxlen (emotion_history app)
                  (entry_of result (time_time (time_calls app))))
    (S (time_calls app)).

(** [process_frame]: the engine's results go to the history; an exception
    of the engine is reported and the frame returned with no results. *)
Definition process_frame (σ : store) (app : app_state) (frame : loc)
    : store * app_state * (loc * list FEREngine.face_result) :=
  match FEREngine.process_frame σ frame with
  | (σ', Ok (processed_frame, results)) =>
      (σ', fold_left record_result results app, (processed_frame, results))
  | (σ', Raise e) => (σ', app, (frame, []))
  end.

End App.

Definition get_emotion_statistics (app : app_state) : pydict Q :=
  match emotion_history app with
  | [] => []
  | _ =>
      let total_detections := Z.of_nat (length (emotion_history app)) in
      let emotion_counts :=
        fold_left (fun emotion_counts entry => count_one emotion_counts (emotion entry))
                  (emotion_history app) [] in
      fractions total_detections emotion_counts
  end.

End LiveCameraFER.

(** ** [class FERDatasetIntegration] ([dataset_integration.py]) *)

(** [s.lower()] on ASCII text. *)
Definition lower_ascii (c : ascii) : ascii :=
  let n := nat_of_ascii c in
  if (65 <=? n)%nat && (n <=? 90)%nat then ascii_of_nat (n + 32) else c.

Fixpoint lower (s : string) : string :=
  match s with
  | EmptyString => EmptyString
  | String c s' => String (lower_ascii c) (lower s')
  end.

(** [s.endswith(suffix)] *)
Definition endswith (s suffix : string) : bool :=
  let n := String.length s in
  let m := String.length suffix in
  (m <=? n)%nat && String.eqb (substring (n - m) m s) suffix.

(** [os.path.join(a, b)] on POSIX paths. *)
Definition os_path_join (a b : string) : string :=
  if String.prefix "/" b then b
  else if String.eqb a "" || endswith a "/" then (a ++ b)%string
  else (a ++ "/" ++ b)%string.

(** [{v: k for k, v in d.items()}] *)
Definition reverse_dict (d : pydict string) : pydict string :=
  fold_left (fun acc kv => dict_set kv.2 kv.1 acc) d [].

(** The file system and the image library, as the loader calls them.  A
    listing or a read may raise; [cv2.imread] returns [None] for a file it
    cannot decode. *)
Class FileSystem : Type := {
  os_path_exists : string -> bool;
  os_path_isdir : string -> bool;
  os_listdir : string -> result (list string);
  cv2_imread : string -> result (option ndarray);
  cv2_resize : ndarray -> Z * Z -> result ndarray;
  (** [cv2.cvtColor(img, cv2.COLOR_BGR2GRAY)]: one intensity per pixel. *)
  cv2_cvtColor_BGR2GRAY : ndarray -> result (list (list Z))
}.

Module FERDatasetIntegration.

(** [__init__] *)
Definition reverse_mapping : pydict string := reverse_dict emotion_mapping.
Definition supported_emotions : list string := dict_values emotion_mapping.

(** A grey image with intensities scaled to [0, 1]. *)
Definition sample : Type := list (list Q).

(** [img_file.lower().endswith(('.png', '.jpg', '.jpeg'))] *)
Definition is_image_file (img_file : string) : bool :=
  let name := lower img_file in
  endswith name ".png" || endswith name ".jpg" || endswith name ".jpeg".

Section Loader.
Context `{FileSystem}.

(** The body of the [try]: [None] when [cv2.imread] returns [None]. *)
Definition load_image (img_path : string) : result (option sample) :=
  img ← cv2_imread img_path;
  match img with
  | None => Ok None
  | Some img =>
      img ← cv2_resize img (48, 48)%Z;
      img ← cv2_cvtColor_BGR2GRAY img;
      Ok (Some (map (map (fun v => inject_Z v / 255)) img))
  end.

(** One file of an emotion directory: an image that loads is appended with
    its label; an exception is printed and the file skipped. *)
Definition load_file (emotion_path mapped_emotion : string)
    (lists : list sample * list string) (img_file : string) : list sample * list string :=
  if is_image_file img_file then
    let img_path := os_path_join emotion_path img_file in
    match load_image img_path with
    | Ok (Some img) => (lists.1 ++ [img], lists.2 ++ [mapped_emotion])
    | Ok None => lists
    | Raise e => lists
    end
  else lists.

(** One entry of a split directory. *)
Definition load_emotion (split_dir : string) (lists : list sample * list string)
    (emotion : string) : result (list sample * list string) :=
  let emotion_path := os_path_join split_dir emotion in
  if os_path_isdir emotion_path then
    let mapped_emotion := map_label emotion in
    img_files ← os_listdir emotion_path;
    Ok (fold_left (load_file emotion_path mapped_emotion) img_files lists)
  else Ok lists.

Fixpoint load_emotions (split_dir : string) (lists : list sample * list string)
    (emotions : list string) : result (list sample * list string) :=
  match emotions with
  | [] => Ok lists
  | emotion :: emotions' =>
      lists ← load_emotion split_dir lists emotion;
      load_emotions split_dir lists emotions'
  end.

(** The loading of one split, ['train'] or ['test']: the source has the
    same block twice. *)
Definition load_split (data_dir split : string) : result (list sample * list string) :=
  let split_dir := os_path_join data_dir split in
  if os_path_exists split_dir then
    emotions ← os_listdir split_dir;
    load_emotions split_dir ([], []) emotions
  else Ok ([], []).

(** Returns [(train_data, train_labels), (test_data, test_labels)]. *)
Definition load_kaggle_fer_dataset (data_dir : string)
    : result ((list sample * list string) * (list sample * list string)) :=
  train ← load_split data_dir "train";
  test ← load_split data_dir "test";
  Ok (train, test).

End Loader.

End FERDatasetIntegration.

(** ** The camera ([cv2.VideoCapture]) *)

Inductive camera_property : Type :=
  | CAP_PROP_FRAME_WIDTH
  | CAP_PROP_FRAME_HEIGHT
  | CAP_PROP_FPS.

(** A capture object: the device index it was made for, whether it is open,
    and the properties asked of it with [set], in the order of the calls. *)
Record capture : Type := Capture {
  device : Z;
  is_opened : bool;
  settings : list (camera_property * Z)
}.

(** Which devices open.  Whether a device opens does not change while the
    modelled code runs. *)
Class Cameras : Type := {
  device_opens : Z -> bool
}.

(** [cv2.VideoCapture(index)] *)
Definition VideoCapture `{Cameras} (index : Z) : capture :=
  Capture index (device_opens index) [].

(** [cap.set(prop, value)] *)
Definition cap_set (cap : capture) (prop : camera_property) (value : Z) : capture :=
  Capture (device cap) (is_opened cap) (settings cap ++ [(prop, value)]).

(** [cap.release()] *)
Definition cap_release (cap : capture) : capture :=
  Capture (device cap) false (settings cap).

(** ** The camera loop of [class LiveCameraFER] *)

Module LiveCameraSession.

(** The attributes of the object: those of [__init__], and [current_frame]
    and [current_results], which exist once the loop has set them.  The
    history and the count of clock readings are those of
    [LiveCameraFER.app_state]. *)
Record session : Type := Session {
  cap : option capture;
  is_running : bool;
  frame_count : Z;
  current_frame : option ndarray;
  current_results : option (list FEREngine.face_result);
  app : LiveCameraFER.app_state
}.

(** [__init__] *)
Definition init : session := Session None false 0 None None LiveCameraFER.init.

(** [start_camera]: the new capture replaces [self.cap] whether it opened
    or not; the properties are set only when it did. *)
Definition start_camera `{Cameras} (s : session) : session * bool :=
  let c := VideoCapture 0 in
  if negb (is_opened c)
  then (Session (Some c) (is_running s) (frame_count s) (current_frame s)
                (current_results s) (app s), false)
  else
    let c := cap_set c CAP_PROP_FRAME_WIDTH 640 in
    let c := cap_set c CAP_PROP_FRAME_HEIGHT 480 in
    let c := cap_set c CAP_PROP_FPS 30 in
    (Session (Some c) (is_running s) (frame_count s) (current_frame s)
             (current_results s) (app s), true).

(** [stop_camera] *)
Definition stop_camera (s : session) : session :=
  Session (cap_release <$> cap s) false (frame_count s) (current_frame s)
          (current_results s) (app s).

(** How a run of the loop ends: the loop is left (its condition is false
    or it breaks), the reads given to the model are used up while the loop
    would go on, or an exception leaves it. *)
Inductive loop_end : Type :=
  | LoopLeft
  | ReadsUsedUp
  | LoopRaised (e : exn).

Section Loop.
Context `{Collaborators}.

(** The [while] loop, over the outcomes of the calls of [self.cap.read()]:
    [Some frame] for [(True, frame)], [None] for a failed read.  A frame
    that was read is a new array of the store.  The pause between frames
    is left out. *)
Fixpoint camera_loop (σ : store) (s : session) (reads : list (option ndarray))
    : store * session * loop_end :=
  if negb (is_running s) then (σ, s, LoopLeft)
  else
    match cap s with
    | Some c =>
        if is_opened c then
          match reads with
          | [] => (σ, s, ReadsUsedUp)
          | None :: _ => (σ, s, LoopLeft)
          | Some frame_read :: reads' =>
              let frame := fresh (dom σ) in
              let σ := <[frame := frame_read]> σ in
              let '(σ, app', (processed_frame, results)) :=
                LiveCameraFER.process_frame σ (app s) frame in
              let s := Session (cap s) (is_running s) (frame_count s) (current_frame s)
                               (current_results s) app' in
              match read σ processed_frame ≫= cvtColor_BGR2RGB with
              | Raise e => (σ, s, LoopRaised e)
              | Ok rgb_frame =>
                  camera_loop σ
                    (Session (cap s) (is_running s) (frame_count s + 1)%Z (Some rgb_frame)
                             (Some results) app')
                    reads'
              end
          end
        else (σ, s, LoopLeft)
    | None => (σ, s, LoopLeft)
    end.

(** [run_camera_loop] *)
Definition run_camera_loop (σ : store) (s : session) (reads : list (option ndarray))
    : store * session * loop_end :=
  camera_loop σ
    (Session (cap s) true (frame_count s) (current_frame s) (current_results s) (app s))
    reads.

End Loop.

End LiveCameraSession.

(** ** [camera_permission_test.py] *)

Module CameraPermissionTest.

(** The calls made on the camera library, in order: the making of a capture
    for a device and whether it opened, a read, a release. *)
Inductive camera_call : Type :=
  | Open (index : Z) (opened : bool)
  | Read (index : Z)
  | Release (index : Z).

Section Tests.
Context `{Cameras}.

(** One round of [for i in range(5)] in the macOS branch: an accessible
    camera is read once and released. *)
Definition probe (i : Z) : list camera_call :=
  let cap := VideoCapture i in
  if is_opened cap then [Open i true; Read i; Release i] else [Open i false].

(** [for i in range(1, 5)]: the first index that opens is released and
    returned; a capture that did not open is released too. *)
Fixpoint try_indices (indices : list Z) : option Z * list camera_call :=
  match indices with
  | [] => (None, [])
  | i :: indices' =>
      let cap := VideoCapture i in
      if is_opened cap then (Some i, [Open i true; Release i])
      else
        let '(found, calls) := try_indices indices' in
        (found, [Open i false; Release i] ++ calls)
  end.

(** [test_camera_permissions()]: the index to use, or [None]; [darwin] is
    [sys.platform == "darwin"].  The printing is left out. *)
Definition test_camera_permissions (darwin : bool) : option Z * list camera_call :=
  let probes := if darwin then concat (probe <$> [0; 1; 2; 3; 4]%Z) else [] in
  let cap := VideoCapture 0 in
  if negb (is_opened cap) then
    let '(found, calls) := try_indices [1; 2; 3; 4]%Z in
    (found, probes ++ [Open 0 false] ++ calls)
  else (Some 0%Z, probes ++ [Open 0 true; Read 0; Release 0]).

(** [test_opencv_camera()] *)
Definition test_opencv_camera : bool * list camera_call :=
  let cap := VideoCapture 0 in
  if is_opened cap then (true, [Open 0 true; Release 0]) else (false, [Open 0 false]).

(** The script: the camera index it reports, if it reports one. *)
Definition main (darwin : bool) : option Z * list camera_call :=
  let '(opencv_ok, calls) := test_opencv_camera in
  if opencv_ok then
    let '(camera_index, calls') := test_camera_permissions darwin in
    (camera_index, calls ++ calls')
  else (None, calls).

End Tests.

End CameraPermissionTest.

(** ** [test_camera.py] *)

Module CameraTest.

(** What the test does to the outside, in order: it shows a frame, writes
    a frame to the file named after a timestamp, releases the camera, and
    closes the windows.  The printing is left out. *)
Inductive effect : Type :=
  | Imshow (frame : ndarray)
  | Imwrite (timestamp : Z) (frame : ndarray)
  | CapRelease
  | DestroyAllWindows.

(** The exceptions that can leave the loop: one of the engine, or the
    division by an elapsed time of zero.  An interrupt from the keyboard is
    not modelled. *)
Inductive test_exn : Type :=
  | EngineRaised (e : exn)
  | ZeroDivisionError.

(** How the loop ends: [break], an exception, or the inputs given to the
    model are used up while the loop would go on. *)
Inductive loop_end : Type :=
  | Break
  | Raised (e : test_exn)
  | InputsUsedUp.

(** The local [frame_count], the number of readings of the clock, and the
    effects so far. *)
Record loop_state : Type := LoopState {
  frame_count : Z;
  time_calls : nat;
  effects : list effect
}.

Section Test.
Context `{Collaborators} `{Cameras}.

(** The [while True] loop, over what each round gets from outside: the
    outcome of [cap.read()] ([None] when [ret] is false) and the value of
    [cv2.waitKey(1)].  Each frame read is a new array. *)
Fixpoint test_loop (σ : store) (start_time : Q) (st : loop_state)
    (inputs : list (option ndarray * Z)) : store * loop_state * loop_end :=
  match inputs with
  | [] => (σ, st, InputsUsedUp)
  | (None, _) :: _ => (σ, st, Break)
  | (Some frame_read, waited) :: inputs' =>
      let frame := fresh (dom σ) in
      let σ := <[frame := frame_read]> σ in
      match FEREngine.process_frame σ frame with
      | (σ, Raise e) => (σ, st, Raised (EngineRaised e))
      | (σ, Ok (processed_frame, results)) =>
          let frame_count := (frame_count st + 1)%Z in
          let every_30 := (frame_count mod 30 =? 0)%Z in
          let elapsed_time := time_time (time_calls st) - start_time in
          if every_30 && Qeq_bool elapsed_time 0
          then (σ, LoopState frame_count (S (time_calls st)) (effects st),
                Raised ZeroDivisionError)
          else
            let time_calls := if every_30 then S (time_calls st) else time_calls st in
            let shown := default [] (σ !! processed_frame) in
            let effects := effects st ++ [Imshow shown] in
            let key := Z.land waited 255 in
            if (key =? 113)%Z
            then (σ, LoopState frame_count time_calls effects, Break)
            else if (key =? 115)%Z
            then
              let timestamp := pyint (time_time time_calls) in
              test_loop σ start_time
                (LoopState frame_count (S time_calls)
                           (effects ++ [Imwrite timestamp shown]))
                inputs'
            else test_loop σ start_time (LoopState frame_count time_calls effects) inputs'
      end
  end.

(** [test_camera()]: it returns at once, with no end of a loop, when the
    camera does not open (the calls of [cap.set] stand behind that [return]
    and never run).  The [finally] block runs when the loop is left, by
    [break] or by an exception, which goes on to the caller. *)
Definition test_camera (σ : store) (inputs : list (option ndarray * Z))
    : list effect * option loop_end :=
  let cap := VideoCapture 0 in
  if negb (is_opened cap) then ([], None)
  else
    let start_time := time_time 0 in
    let '(_, st, ending) := test_loop σ start_time (LoopState 0 1 []) inputs in
    match ending with
    | InputsUsedUp => (effects st, Some InputsUsedUp)
    | _ => (effects st ++ [CapRelease; DestroyAllWindows], Some ending)
    end.

End Test.

End CameraTest.

(** * The vocabulary of the properties *)

(** ** Labels and mass *)

(** The canonical taxonomy, from the docstring of [FEREngine]. *)
Definition canonical_labels : list string :=
  ["happy"; "surprise"; "frustration"; "anger"; "sad"; "neutral"; "disgust"]%string.

(** The raw probability mass that lands on the canonical label [c]. *)
Definition mass (c : string) (raw : dist) : Q :=
  pysum (dict_values (filter (fun kv => map_label kv.1 = c) raw)).

(** The canonical labels a raw distribution reaches. *)
Definition mapped_keys (raw : dist) : list string := map_label <$> dict_keys raw.

(** How many times a label occurs. *)
Definition occurrences (e : string) (labels : list string) : Z :=
  Z.of_nat (length (filter (fun l => l = e) labels)).

(** What a statistics mapping holds under a label, for the labels it was
    computed from. *)
Definition fraction_of (e : string) (labels : list string) : option Q :=
  if decide (occurrences e labels = 0%Z) then None
  else Some (inject_Z (occurrences e labels) / inject_Z (Z.of_nat (length labels))).

(** ** Drawing *)

(** [f'] is [f] with some pixels repainted in the colours the engine draws
    with; the shape is the same. *)
Definition repainted (f f' : ndarray) : Prop :=
  Forall2 (Forall2 (fun p p' : pixel => p' = p \/ p' = green \/ p' = white)) f f'.

(** The store [σ'] is [σ] with, at most, the array at [frame] repainted. *)
Definition drawn_on (frame : loc) (σ σ' : store) : Prop :=
  (forall l : loc, l <> frame -> σ' !! l = σ !! l)
  /\ option_Forall2 repainted (σ !! frame) (σ' !! frame).

(** The pixel in column [c] of row [r]. *)
Definition pixel_at (f : ndarray) (c r : nat) : option pixel :=
  f !! r ≫= fun row => row !! c.

(** The colours the engine draws with. *)
Definition drawn_colour (p : pixel) : Prop := p = green \/ p = white.

(** The array at [frame] has a pixel at (c, r), and it has been drawn. *)
Definition marked (σ : store) (frame : loc) (c r : nat) : Prop :=
  exists f p, σ !! frame = Some f /\ pixel_at f c r = Some p /\ drawn_colour p.

(** The origins of [lines] lines of text in column [x], 20 pixels apart
    from [y_offset] on. *)
Fixpoint line_points (x y_offset : Z) (lines : nat) : list (Z * Z) :=
  match lines with
  | O => []
  | S lines' => (x, y_offset) :: line_points x (y_offset + 20)%Z lines'
  end.

(** The points that the drawing of a box with [lines] emotions gives to
    OpenCV: the corners of the rectangle, the origin of the dominant
    emotion above it, the origins of the probabilities below it. *)
Definition draw_points (box : FEREngine.pixel_box) (lines : nat) : list (Z * Z) :=
  let '(x, y, w, h) := box in
  [(x, y); (x + w, y + h); (x, y - 10)]%Z ++ line_points x (y + h + 20)%Z lines.

(** Every point of the drawing is a pair of C [int]. *)
Definition drawable (box : FEREngine.pixel_box) (lines : nat) : bool :=
  forallb is_point (draw_points box lines).

Definition result_drawable (r : FEREngine.face_result) : bool :=
  drawable (FEREngine.bbox r) (length (FEREngine.emotions r)).

(** ** Boxes *)

(** A box of positive size with non-negative corner, inside a frame of
    shape (h, w). *)
Definition box_in_frame (h w : Z) (box : FEREngine.pixel_box) : Prop :=
  let '(x, y, bw, bh) := box in
  (0 < bw /\ 0 < bh /\ 0 <= x /\ 0 <= y /\ x + bw <= w /\ y + bh <= h)%Z.

(** A relative box inside the unit square that covers at least one pixel
    of a frame of shape (h, w) in each direction. *)
Definition inside_unit_square (h w : Z) (d : relative_bounding_box) : Prop :=
  0 <= xmin d /\ 0 <= ymin d
  /\ xmin d + width d <= 1 /\ ymin d + height d <= 1
  /\ 1 <= width d * inject_Z w /\ 1 <= height d * inject_Z h.

(** ** Classification and history *)

Section Vocabulary.
Context `{Collaborators}.

(** The ways the classification of a face crop fails: the crop has no
    pixels (the colour conversion raises), DeepFace raises, or it returns
    nothing to read emotions from. *)
Inductive classifier_failure (face_img : ndarray) : Prop :=
  | malformed_crop :
      is_empty_image face_img = true -> classifier_failure face_img
  | classifier_raises (rgb : ndarray) (e : exn) :
      cvtColor_BGR2RGB face_img = Ok rgb ->
      DeepFace_analyze rgb = Raise e -> classifier_failure face_img
  | classifier_no_result (rgb : ndarray) (r : deepface_result) :
      cvtColor_BGR2RGB face_img = Ok rgb ->
      DeepFace_analyze rgb = Ok r ->
      r = ResultNone \/ r = ResultList [] \/ r = ResultDict None
      \/ (exists rs, r = ResultList (None :: rs)) ->
      classifier_failure face_img.

(** The rectangle drawn for a box covers the pixel in column [c] of row
    [r]. *)
Definition outlined (box : FEREngine.pixel_box) (c r : nat) : Prop :=
  let '(x, y, w, h) := box in
  rectangle_mask (x, y) (x + w, y + h)%Z 2 (Z.of_nat c) (Z.of_nat r) = true.

(** The emotions of the result are what [analyze_emotion] returns for the
    crop of its box, in the frame [f] or in [f] with earlier results drawn
    over it. *)
Definition analysed (f : ndarray) (r : FEREngine.face_result) : Prop :=
  exists f',
    repainted f f'
    /\ FEREngine.analyze_emotion (FEREngine.face_roi f' (FEREngine.bbox r))
       = Ok (FEREngine.emotions r).

(** DeepFace returns the raw distribution [raw] for the crop. *)
Definition classified (face_img : ndarray) (raw : dist) : Prop :=
  exists rgb r,
    cvtColor_BGR2RGB face_img = Ok rgb
    /\ DeepFace_analyze rgb = Ok r
    /\ (r = ResultDict (Some raw) \/ exists rs, r = ResultList (Some raw :: rs)).

(** The entries [process_frame] appends for a list of results: one per
    result, in order, each stamped with the next reading of the clock. *)
Definition entries_of (app : LiveCameraFER.app_state) (results : list FEREngine.face_result)
    : list LiveCameraFER.history_entry :=
  imap (fun i r => LiveCameraFER.entry_of r (time_time (LiveCameraFER.time_calls app + i))) results.

End Vocabulary.

(** ** Concrete collaborators *)

(** The outline of the rectangle with corners [pt1] and [pt2]: pixels the
    drawing of a rectangle covers at any thickness. *)
Definition outline_mask (pt1 pt2 : Z * Z) (thickness : Z) : mask :=
  fun c r =>
    ((pt1.1 <=? c) && (c <=? pt2.1) && (pt1.2 <=? r) && (r <=? pt2.2)
     && ((c =? pt1.1) || (c =? pt2.1) || (r =? pt1.2) || (r =? pt2.2)))%Z.

(** A detector that finds two faces, a classifier that raises on a crop of
    a single row and otherwise answers with one result, and a rasteriser
    that draws the outline of rectangles.  The frames of the runs below are
    4 x 4, and the text origins (above the box by 10 rows, below it by 20)
    put every glyph outside them: no text pixel is covered. *)
Definition demo : Collaborators := {|
  face_detection_process := fun _ =>
    Ok (Some [RelBox 0 0 (1 # 2) (1 # 2); RelBox (1 # 2) (1 # 2) (1 # 4) (1 # 4)]);
  DeepFace_analyze := fun face_img =>
    if (length face_img =? 1)%nat then Raise ClassifierError
    else Ok (ResultList [Some [("happy", 3); ("fear", 1)]%string]);
  rectangle_mask := outline_mask;
  text_mask := fun _ _ _ _ _ _ => false;
  format_2f := fun _ => ""%string;
  time_time := fun n => inject_Z (Z.of_nat n)
|}.

(** The same with a detector that reports a face which leaves the frame on
    the left, and one narrower than a pixel. *)
Definition demo_edge : Collaborators := {|
  face_detection_process := fun _ =>
    Ok (Some [RelBox (- (1 # 4)) (1 # 4) (1 # 2) (1 # 2); RelBox (1 # 4) (1 # 4) (1 # 8) (1 # 2)]);
  DeepFace_analyze := @DeepFace_analyze demo;
  rectangle_mask := outline_mask;
  text_mask := fun _ _ _ _ _ _ => false;
  format_2f := fun _ => ""%string;
  time_time := fun n => inject_Z (Z.of_nat n)
|}.

(** The same with a detector whose second face lies far to the right of
    the frame: on a frame 4 pixels wide its x is 2^31, one more than the
    greatest C [int]. *)
Definition demo_far : Collaborators := {|
  face_detection_process := fun _ =>
    Ok (Some [RelBox 0 0 (1 # 2) (1 # 2); RelBox 536870912 0 (1 # 2) (1 # 2)]);
  DeepFace_analyze := @DeepFace_analyze demo;
  rectangle_mask := outline_mask;
  text_mask := fun _ _ _ _ _ _ => false;
  format_2f := fun _ => ""%string;
  time_time := fun n => inject_Z (Z.of_nat n)
|}.

Definition black : pixel := (0, 0, 0)%Z.

(** A black frame of 4 x 4 pixels, the only array of the store. *)
Definition black_frame : ndarray := replicate 4 (replicate 4 black).
Definition demo_store : store := {[ 0%nat := black_frame ]}.

(** The frame after the run on [demo]: the outlines of the two boxes. *)
Definition annotated_frame : ndarray :=
  [[green; green; green; black];
   [green; black; green; black];
   [green; green; green; green];
   [black; black; green; green]].

Definition demo_results : list FEREngine.face_result :=
  [FEREngine.FaceResult (0, 0, 2, 2)%Z [("happy", 3 # 4); ("frustration", 1 # 4)]%string "happy";
   FEREngine.FaceResult (2, 2, 1, 1)%Z [] "neutral"].

(** The frame after the first box of the run on [demo_far] was drawn. *)
Definition first_box_frame : ndarray :=
  [[green; green; green; black];
   [green; black; green; black];
   [green; green; green; black];
   [black; black; black; black]].

(** 150 results; the entries made from them are told apart by their
    timestamps. *)
Definition many_results : list FEREngine.face_result :=
  replicate 150 (FEREngine.FaceResult (0, 0, 2, 2)%Z [("happy", 1)]%string "happy").

(** Six happy entries, then four sad ones. *)
Definition ten_entries : LiveCameraFER.app_state :=
  LiveCameraFER.AppState
    (((fun n : nat => LiveCameraFER.HistoryEntry "happy" 1 (inject_Z (Z.of_nat n))) <$> seq 0 6)
     ++ ((fun n : nat => LiveCameraFER.HistoryEntry "sad" 1 (inject_Z (Z.of_nat n))) <$> seq 6 4))
    10.

(** ** Key order *)

(** The distinct elements of a list, in the order of their first
    occurrence. *)
Fixpoint first_seen (l : list string) : list string :=
  match l with
  | [] => []
  | x :: l' => x :: filter (fun y => y <> x) (first_seen l')
  end.

(** ** Rectangular arrays *)

(** Every row of the array has the width its shape gives. *)
Definition rectangular (f : ndarray) : Prop :=
  Forall (fun row => Z.of_nat (length row) = (shape f).2) f.

(** ** Sums of counts *)

(** The sum of a list of integers. *)
Definition zsum (xs : list Z) : Z := foldr Z.add 0%Z xs.

(** ** The dataset loader *)

(** What the loops of the loader keep: as many labels as samples, and
    labels that satisfy [P]. *)
Definition aligned (P : string -> Prop)
    (lists : list FERDatasetIntegration.sample * list string) : Prop :=
  length lists.1 = length lists.2 /\ Forall P lists.2.

Section LoaderVocabulary.
Context `{FileSystem}.

(** The label comes from a directory that the listing of [split_dir]
    names. *)
Definition label_of_listed_directory (split_dir label : string) : Prop :=
  exists emotions emotion,
    os_listdir split_dir = Ok emotions
    /\ emotion ∈ emotions
    /\ os_path_isdir (os_path_join split_dir emotion) = true
    /\ label = map_label emotion.

(** The listing that the loader makes of an entry of a split directory,
    if it makes one, succeeds. *)
Definition entry_listable (split_dir emotion : string) : bool :=
  let emotion_path := os_path_join split_dir emotion in
  if os_path_isdir emotion_path then
    match os_listdir emotion_path with
    | Ok _ => true
    | Raise _ => false
    end
  else true.

(** Every listing that the loading of a split makes succeeds: that of the
    split's directory, if it exists, and those of its entries that are
    directories. *)
Definition listable (data_dir split : string) : bool :=
  let split_dir := os_path_join data_dir split in
  if os_path_exists split_dir then
    match os_listdir split_dir with
    | Ok emotions => forallb (entry_listable split_dir) emotions
    | Raise _ => false
    end
  else true.

End LoaderVocabulary.

(** A file system with a train split and no test split: a directory of
    fear images, one of which does not decode, a directory of happy images
    and a stray file.  Resizing keeps the image and the grey value is the
    blue channel. *)
Definition demo_fs : FileSystem := {|
  os_path_exists := fun p => bool_decide (p = "data/train"%string);
  os_path_isdir := fun p =>
    bool_decide (p ∈ ["data/train/fear"; "data/train/happy"]%string);
  os_listdir := fun p =>
    if bool_decide (p = "data/train"%string) then Ok ["fear"; "happy"; "notes.txt"]%string
    else if bool_decide (p = "data/train/fear"%string) then Ok ["a.PNG"; "b.txt"; "c.jpg"]%string
    else if bool_decide (p = "data/train/happy"%string) then Ok ["d.jpeg"]%string
    else Raise InvalidReference;
  cv2_imread := fun p =>
    if bool_decide (p = "data/train/fear/c.jpg"%string) then Ok None
    else Ok (Some (replicate 1 (replicate 1 (255, 0, 0)%Z)));
  cv2_resize := fun img _ => Ok img;
  cv2_cvtColor_BGR2GRAY := fun img => Ok (map (map (fun p : pixel => p.1.1)) img)
|}.

(** The same file system with images that fail: reading one raises, and
    another one does not decode. *)
Definition demo_fs_failing : FileSystem := {|
  os_path_exists := @os_path_exists demo_fs;
  os_path_isdir := @os_path_isdir demo_fs;
  os_listdir := @os_listdir demo_fs;
  cv2_imread := fun p =>
    if bool_decide (p = "data/train/fear/a.PNG"%string) then Raise Cv2Error
    else if bool_decide (p = "data/train/fear/c.jpg"%string) then Ok None
    else Ok (Some (replicate 1 (replicate 1 (255, 0, 0)%Z)));
  cv2_resize := fun img _ => Ok img;
  cv2_cvtColor_BGR2GRAY := @cv2_cvtColor_BGR2GRAY demo_fs
|}.

(** ** Camera sessions *)

(** The session as [run_camera_loop] leaves it when it processes nothing:
    only [is_running] is set. *)
Definition marked_running (s : LiveCameraSession.session) : LiveCameraSession.session :=
  LiveCameraSession.Session
    (LiveCameraSession.cap s) true (LiveCameraSession.frame_count s)
    (LiveCameraSession.current_frame s) (LiveCameraSession.current_results s)
    (LiveCameraSession.app s).

(** A machine on which only device 2 opens, and one on which device 0
    opens. *)
Definition only_device_2 : Cameras := {| device_opens := fun i => (i =? 2)%Z |}.
Definition device_0_works : Cameras := {| device_opens := fun i => (i =? 0)%Z |}.

(** A session whose camera is open. *)
Definition open_session : LiveCameraSession.session :=
  (@LiveCameraSession.start_camera device_0_works LiveCameraSession.init).1.

(** ** Captures held *)

(** The devices held after a sequence of calls, from those held before: a
    capture that opened holds its device until it is released. *)
Definition held_after (held : list Z) (calls : list CameraPermissionTest.camera_call)
    : list Z :=
  fold_left
    (fun held call =>
       match call with
       | CameraPermissionTest.Open i true => held ++ [i]
       | CameraPermissionTest.Open i false => held
       | CameraPermissionTest.Read i => held
       | CameraPermissionTest.Release i => filter (fun j => j <> i) held
       end)
    calls held.

(** A log of the camera test's rounds: frames shown, each save being of
    the frame shown just before it, and nothing else. *)
Fixpoint rounds (shown : option ndarray) (log : list CameraTest.effect) : Prop :=
  match log with
  | [] => True
  | CameraTest.Imshow f :: log' => rounds (Some f) log'
  | CameraTest.Imwrite _ f :: log' => shown = Some f /\ rounds None log'
  | _ => False
  end.

(** A round in which the loop of the camera test breaks: the read fails,
    or the key, cut to its low 8 bits, is q. *)
Definition stops (round : option ndarray * Z) : bool :=
  match round.1 with
  | None => true
  | Some _ => (Z.land round.2 255 =? 113)%Z
  end.

(** The number of frames a log shows. *)
Fixpoint shows (log : list CameraTest.effect) : nat :=
  match log with
  | [] => 0
  | CameraTest.Imshow _ :: log' => S (shows log')
  | _ :: log' => shows log'
  end.

(** The collaborators of [demo] with a clock that stands still. *)
Definition demo_stuck : Collaborators := {|
  face_detection_process := @face_detection_process demo;
  DeepFace_analyze := @DeepFace_analyze demo;
  rectangle_mask := @rectangle_mask demo;
  text_mask := @text_mask demo;
  format_2f := @format_2f demo;
  time_time := fun _ => 0
|}.

(** * Properties *)

(** ** Dictionaries and sums *)

Lemma dict_get_set_eq {V} (k : string) (v : V) (d : pydict V) :
  dict_get k (dict_set k v d) = Some v.
Proof.
  induction d as [|[k' v'] d IH]; simpl.
  - by rewrite decide_True.
  - destruct (decide (k' = k)) as [->|Hne]; simpl.
    + by rewrite decide_True.
    + by rewrite decide_False.
Qed.

Lemma dict_get_set_ne {V} (k k' : string) (v : V) (d : pydict V) :
  k <> k' -> dict_get k' (dict_set k v d) = dict_get k' d.
Proof.
  intros Hne. induction d as [|[k0 v0] d IH]; simpl.
  - by rewrite decide_False.
  - destruct (decide (k0 = k)) as [->|Hne0]; simpl.
    + by rewrite !decide_False.
    + destruct (decide (k0 = k')); [done | apply IH].
Qed.

Lemma dict_get_scale (t : Q) (k : string) (d : dist) :
  dict_get k (map (fun kv => (kv.1, kv.2 / t)) d) = (fun v => v / t) <$> dict_get k d.
Proof.
  induction d as [|[k' v'] d IH]; simpl; [done|].
  destruct (decide (k' = k)); [done | apply IH].
Qed.

Lemma dict_values_scale (t : Q) (d : dist) :
  dict_values (map (fun kv => (kv.1, kv.2 / t)) d) = map (fun v => v / t) (dict_values d).
Proof.
  unfold dict_values. induction d as [|kv d IH]; [done|].
  csimpl. by rewrite <- IH.
Qed.

Lemma Qltb_lt (x y : Q) : Qltb x y = true <-> x < y.
Proof.
  unfold Qltb. rewrite negb_true_iff, <- not_true_iff_false, Qle_bool_iff.
  split; [apply Qnot_le_lt | apply Qlt_not_le].
Qed.

Lemma Qltb_ge (x y : Q) : Qltb x y = false <-> y <= x.
Proof.
  unfold Qltb. rewrite negb_false_iff. apply Qle_bool_iff.
Qed.

Lemma fold_left_Qplus (xs : list Q) (a : Q) :
  fold_left Qplus xs a == a + pysum xs.
Proof.
  unfold pysum. revert a. induction xs as [|x xs IH]; intros a; simpl.
  - ring.
  - rewrite (IH (a + x)), (IH (0 + x)). ring.
Qed.

Lemma pysum_cons (x : Q) (xs : list Q) : pysum (x :: xs) == x + pysum xs.
Proof. unfold pysum at 1. simpl. rewrite fold_left_Qplus. ring. Qed.

Lemma pysum_scale (t : Q) (xs : list Q) :
  pysum (map (fun v => v / t) xs) == pysum xs / t.
Proof.
  induction xs as [|x xs IH]; simpl.
  - unfold pysum. simpl. unfold Qdiv. ring.
  - rewrite !pysum_cons, IH. unfold Qdiv. ring.
Qed.

(** Writing [v] under [k] changes the sum of the values by [v] minus what
    was there. *)
Lemma pysum_dict_set (k : string) (v : Q) (d : dist) :
  pysum (dict_values (dict_set k v d))
  == pysum (dict_values d) - default 0 (dict_get k d) + v.
Proof.
  unfold dict_values. induction d as [|[k' v'] d IH]; csimpl.
  - rewrite pysum_cons. ring.
  - destruct (decide (k' = k)); csimpl; rewrite !pysum_cons.
    + ring.
    + rewrite IH. ring.
Qed.

(** ** The mapper *)

(** C4: the label map sends fear to frustration and angry to anger, keeps
    every other native label, sends every native label into the canonical
    taxonomy, and lets every label outside the native vocabulary through
    unchanged. *)
Theorem map_label_table :
  map_label "fear" = "frustration"%string
  /\ map_label "angry" = "anger"%string
  /\ (forall l : string,
        l ∈ ["disgust"; "happy"; "sad"; "surprise"; "neutral"]%string -> map_label l = l)
  /\ (forall l : string, l ∈ emotion_labels -> map_label l ∈ canonical_labels)
  /\ (forall l : string, l ∉ emotion_labels -> map_label l = l).
Proof.
  split; [reflexivity|]. split; [reflexivity|].
  split; [|split].
  - intros l Hl. repeat (apply elem_of_cons in Hl as [->|Hl]; [reflexivity|]).
    by apply elem_of_nil in Hl.
  - intros l Hl. unfold emotion_labels in Hl.
    repeat (apply elem_of_cons in Hl as [->|Hl]; [vm_compute; set_solver|]).
    by apply elem_of_nil in Hl.
  - intros l Hl. unfold map_label, emotion_mapping. simpl.
    repeat (case_decide; [subst l; exfalso; apply Hl; unfold emotion_labels; set_solver|]).
    reflexivity.
Qed.

Lemma map_label_table_witness :
  map_label "happy" = "happy"%string /\ map_label "bored" = "bored"%string.
Proof.
  split.
  - apply (proj1 (proj2 (proj2 map_label_table))). set_solver.
  - apply (proj2 (proj2 (proj2 (proj2 map_label_table)))).
    unfold emotion_labels. intros Hin.
    repeat (apply elem_of_cons in Hin as [Heq|Hin]; [discriminate Heq|]).
    by apply elem_of_nil in Hin.
Defined.

(** ** Remapping and normalisation *)

Lemma merge_label_get (c : string) (acc : dist) (item : string * Q) :
  dict_get c (merge_label acc item)
  = if decide (map_label item.1 = c)
    then Some (match dict_get c acc with Some v => v + item.2 | None => item.2 end)
    else dict_get c acc.
Proof.
  unfold merge_label. case_decide as Hc.
  - subst c. destruct (dict_get (map_label item.1) acc); apply dict_get_set_eq.
  - destruct (dict_get (map_label item.1) acc); by apply dict_get_set_ne.
Qed.

Lemma merge_label_sum (acc : dist) (item : string * Q) :
  pysum (dict_values (merge_label acc item)) == pysum (dict_values acc) + item.2.
Proof.
  unfold merge_label.
  destruct (dict_get (map_label item.1) acc) as [v|] eqn:Hget;
    rewrite pysum_dict_set, Hget; simpl; ring.
Qed.

Lemma merge_fold_sum (raw acc : dist) :
  pysum (dict_values (fold_left merge_label raw acc))
  == pysum (dict_values acc) + pysum (dict_values raw).
Proof.
  revert acc. induction raw as [|item raw IH]; intros acc.
  - change (pysum (dict_values (@nil (string * Q)))) with 0. simpl. ring.
  - simpl. rewrite IH, merge_label_sum.
    change (dict_values (item :: raw)) with (item.2 :: dict_values raw).
    rewrite pysum_cons. ring.
Qed.

Lemma merge_labels_sum (raw : dist) :
  pysum (dict_values (merge_labels raw)) == pysum (dict_values raw).
Proof.
  unfold merge_labels. rewrite merge_fold_sum.
  change (pysum (dict_values (@nil (string * Q)))) with 0. ring.
Qed.

Lemma mass_cons (c : string) (item : string * Q) (raw : dist) :
  mass c (item :: raw)
  == (if decide (map_label item.1 = c) then item.2 else 0) + mass c raw.
Proof.
  unfold mass. case_decide as Hc.
  - rewrite filter_cons_True by done. unfold dict_values. csimpl.
    by rewrite pysum_cons.
  - rewrite filter_cons_False by done. ring.
Qed.

(** What the mapping loop leaves under a canonical label. *)
Lemma merge_fold_get (c : string) (raw acc : dist) :
  match dict_get c (fold_left merge_label raw acc) with
  | Some v =>
      v == default 0 (dict_get c acc) + mass c raw
      /\ (is_Some (dict_get c acc) \/ c ∈ mapped_keys raw)
  | None => dict_get c acc = None /\ c ∉ mapped_keys raw
  end.
Proof.
  revert acc. induction raw as [|item raw IH]; intros acc; simpl.
  - unfold mass, mapped_keys, dict_keys, dict_values, pysum. simpl.
    destruct (dict_get c acc) as [v|]; simpl.
    + split; [ring | left; eauto].
    + split; [done | apply not_elem_of_nil].
  - specialize (IH (merge_label acc item)).
    rewrite merge_label_get in IH.
    unfold mapped_keys, dict_keys in *. csimpl.
    destruct (dict_get c (fold_left merge_label raw (merge_label acc item))) as [v|].
    + destruct IH as [Hv Hin]. rewrite mass_cons. case_decide as Hc.
      * split; [|right; subst c; apply elem_of_cons; by left].
        rewrite Hv. destruct (dict_get c acc); simpl; ring.
      * split; [rewrite Hv; ring|].
        destruct Hin as [?|?]; [by left | right; apply elem_of_cons; by right].
    + destruct IH as [Hnone Hnin]. case_decide as Hc; [done|].
      split; [done|]. apply not_elem_of_cons. split; [congruence | done].
Qed.

Lemma merge_labels_get (c : string) (raw : dist) :
  match dict_get c (merge_labels raw) with
  | Some v => v == mass c raw /\ c ∈ mapped_keys raw
  | None => c ∉ mapped_keys raw
  end.
Proof.
  pose proof (merge_fold_get c raw []) as Hfold. unfold merge_labels.
  destruct (dict_get c (fold_left merge_label raw [])) as [v|]; simpl in Hfold.
  - destruct Hfold as [Hv [[? Hsome]|Hin]]; [done|].
    split; [rewrite Hv; ring | done].
  - by destruct Hfold.
Qed.

Lemma merge_labels_nil (raw : dist) : merge_labels raw = [] <-> raw = [].
Proof.
  split; [|by intros ->].
  destruct raw as [|item raw]; [done|]. intros Hnil.
  pose proof (merge_labels_get (map_label item.1) (item :: raw)) as Hget.
  rewrite Hnil in Hget. simpl in Hget. exfalso. apply Hget.
  unfold mapped_keys, dict_keys. csimpl. apply elem_of_cons. by left.
Qed.

Lemma remap_distribution_pos (raw : dist) :
  0 < pysum (dict_values raw) ->
  remap_distribution raw
  = map (fun kv => (kv.1, kv.2 / pysum (dict_values (merge_labels raw)))) (merge_labels raw).
Proof.
  intros Hpos. unfold remap_distribution.
  assert (Hlt : Qltb 0 (pysum (dict_values (merge_labels raw))) = true)
    by (apply Qltb_lt; by rewrite merge_labels_sum).
  by rewrite Hlt.
Qed.

Lemma remap_distribution_nonpos (raw : dist) :
  pysum (dict_values raw) <= 0 -> remap_distribution raw = merge_labels raw.
Proof.
  intros Hle. unfold remap_distribution.
  assert (Hge : Qltb 0 (pysum (dict_values (merge_labels raw))) = false)
    by (apply Qltb_ge; by rewrite merge_labels_sum).
  by rewrite Hge.
Qed.

(** C2: on a raw distribution of positive total mass, the output has
    exactly the canonical labels the raw labels map to, each holding the sum
    of the probabilities of the raw labels mapped to it divided by the total
    mass; hence its values sum to 1. *)
Theorem remap_distribution_normalised (raw : dist) :
  0 < pysum (dict_values raw) ->
  (forall c : string, c ∉ mapped_keys raw -> dict_get c (remap_distribution raw) = None)
  /\ (forall c : string, c ∈ mapped_keys raw ->
        exists v, dict_get c (remap_distribution raw) = Some v
                  /\ v == mass c raw / pysum (dict_values raw))
  /\ pysum (dict_values (remap_distribution raw)) == 1.
Proof.
  intros Hpos. rewrite (remap_distribution_pos raw Hpos).
  pose proof (merge_labels_sum raw) as Hsum.
  set (total_prob := pysum (dict_values (merge_labels raw))) in *.
  split; [|split].
  - intros c Hc. rewrite dict_get_scale.
    pose proof (merge_labels_get c raw) as Hget.
    destruct (dict_get c (merge_labels raw)); [by destruct Hget | done].
  - intros c Hc. rewrite dict_get_scale.
    pose proof (merge_labels_get c raw) as Hget.
    destruct (dict_get c (merge_labels raw)) as [v|]; [|done].
    exists (v / total_prob). split; [done|].
    destruct Hget as [Hv _]. by rewrite Hv, Hsum.
  - rewrite dict_values_scale, pysum_scale. fold total_prob. field.
    intros Hz. rewrite Hsum in Hz. rewrite Hz in Hpos. by apply Qlt_irrefl in Hpos.
Qed.

Lemma remap_distribution_normalised_witness :
  pysum (dict_values (remap_distribution [("angry", 1); ("fear", 3)]%string)) == 1.
Proof.
  apply (remap_distribution_normalised [("angry", 1); ("fear", 3)]%string).
  reflexivity.
Defined.

(** C3, as the claim states it, fails: an all-zero distribution comes back
    with its (mapped) entries, not empty. *)
Lemma remap_distribution_zero_not_empty :
  pysum (dict_values [("happy", 0)]%string) == 0
  /\ remap_distribution [("happy", 0)]%string = [("happy", 0)]%string
  /\ remap_distribution [("happy", 0)]%string <> [].
Proof. split; [reflexivity|]. split; [reflexivity | discriminate]. Qed.

(** C3, amended: on a raw distribution of total mass 0 the division is
    skipped: the output is the mapped distribution as merged, each canonical
    label holding the sum of the raw probabilities mapped to it, and it is
    empty exactly when the raw distribution is. *)
Theorem remap_distribution_zero_mass (raw : dist) :
  pysum (dict_values raw) == 0 ->
  remap_distribution raw = merge_labels raw
  /\ (forall c : string, c ∉ mapped_keys raw -> dict_get c (remap_distribution raw) = None)
  /\ (forall c : string, c ∈ mapped_keys raw ->
        exists v, dict_get c (remap_distribution raw) = Some v /\ v == mass c raw)
  /\ (remap_distribution raw = [] <-> raw = []).
Proof.
  intros Hzero.
  assert (Heq : remap_distribution raw = merge_labels raw).
  { apply remap_distribution_nonpos. rewrite Hzero. apply Qle_refl. }
  rewrite Heq. split; [done|]. split; [|split].
  - intros c Hc. pose proof (merge_labels_get c raw) as Hget.
    destruct (dict_get c (merge_labels raw)); [by destruct Hget | done].
  - intros c Hc. pose proof (merge_labels_get c raw) as Hget.
    destruct (dict_get c (merge_labels raw)) as [v|]; [|done].
    exists v. by destruct Hget.
  - apply merge_labels_nil.
Qed.

Lemma remap_distribution_zero_mass_witness :
  remap_distribution [("fear", 0); ("sad", 0)]%string
  = merge_labels [("fear", 0); ("sad", 0)]%string.
Proof.
  apply (remap_distribution_zero_mass [("fear", 0); ("sad", 0)]%string).
  reflexivity.
Defined.

(** ** The first maximum *)

Lemma max_from_first_max {A} (key : A -> Q) (items : list A) (best : A) :
  exists i : nat,
    (best :: items) !! i = Some (max_from key best items)
    /\ (forall (j : nat) (x : A),
          (best :: items) !! j = Some x -> key x <= key (max_from key best items))
    /\ (forall (j : nat) (x : A),
          (j < i)%nat -> (best :: items) !! j = Some x ->
          key x < key (max_from key best items)).
Proof.
  revert best. induction items as [|y items IH]; intros best; simpl.
  - exists 0%nat. split; [done|]. split.
    + intros [|j] x Hx; simplify_eq/=; apply Qle_refl.
    + intros j x Hj. lia.
  - destruct (Qltb (key best) (key y)) eqn:Hlt.
    + apply Qltb_lt in Hlt.
      destruct (IH y) as (i & Hi & Hall & Hbefore).
      set (m := max_from key y items) in *.
      assert (Hy : key y <= key m) by (apply (Hall 0%nat); done).
      exists (S i). split; [done|]. split.
      * intros [|j] x Hx; simplify_eq/=; [|by apply (Hall j)].
        apply Qlt_le_weak. by apply Qlt_le_trans with (key y).
      * intros [|j] x Hj Hx; simplify_eq/=.
        -- by apply Qlt_le_trans with (key y).
        -- apply (Hbefore j); [lia | done].
    + apply Qltb_ge in Hlt.
      destruct (IH best) as (i & Hi & Hall & Hbefore).
      set (m := max_from key best items) in *.
      assert (Hb : key best <= key m) by (apply (Hall 0%nat); done).
      destruct i as [|i].
      * exists 0%nat. split; [done|]. split; [|intros; lia].
        intros [|[|j]] x Hx; simplify_eq/=.
        -- done.
        -- by apply Qle_trans with (key best).
        -- by apply (Hall (S j)).
      * exists (S (S i)). split; [done|]. split.
        -- intros [|[|j]] x Hx; simplify_eq/=.
           ++ done.
           ++ by apply Qle_trans with (key best).
           ++ by apply (Hall (S j)).
        -- assert (Hbm : key best < key m) by (apply (Hbefore 0%nat); [lia | done]).
           intros [|[|j]] x Hj Hx; simplify_eq/=.
           ++ done.
           ++ by apply Qle_lt_trans with (key best).
           ++ apply (Hbefore (S j)); [lia | done].
Qed.

Lemma max_from_values (item : string * Q) (items : dist) :
  max_from id item.2 (dict_values items) = (max_from snd item items).2.
Proof.
  revert item. unfold dict_values. induction items as [|y items IH]; intros item; csimpl.
  - done.
  - destruct (Qltb item.2 y.2); apply IH.
Qed.

(** ** Drawing *)

Lemma Forall2_imap {A B} (R : A -> B -> Prop) (g : nat -> A -> B) (l : list A) :
  (forall i x, R x (g i x)) -> Forall2 R l (imap g l).
Proof.
  revert g. induction l as [|x l IH]; intros g Hg; csimpl; constructor.
  - apply Hg.
  - apply IH. intros i y. apply Hg.
Qed.

Lemma Forall2_chain {A} (R : A -> A -> Prop) (l1 l2 l3 : list A) :
  (forall x y z, R x y -> R y z -> R x z) ->
  Forall2 R l1 l2 -> Forall2 R l2 l3 -> Forall2 R l1 l3.
Proof.
  intros HR H12. revert l3. induction H12 as [|x y l1 l2 Hxy _ IH]; intros l3 H23.
  - by inversion H23.
  - inversion H23 as [|? z ? l3' Hyz H23']; subst. constructor; [by eapply HR | by apply IH].
Qed.

Lemma repainted_refl (f : ndarray) : repainted f f.
Proof.
  unfold repainted. apply Forall_Forall2_diag, Forall_forall. intros row _.
  apply Forall_Forall2_diag, Forall_forall. intros p _. by left.
Qed.

Lemma repainted_trans (f1 f2 f3 : ndarray) :
  repainted f1 f2 -> repainted f2 f3 -> repainted f1 f3.
Proof.
  unfold repainted. intros H12 H23.
  eapply Forall2_chain; [|exact H12|exact H23].
  intros r1 r2 r3 Hr12 Hr23.
  eapply Forall2_chain; [|exact Hr12|exact Hr23].
  intros p1 p2 p3 Hp12 Hp23. simpl in *.
  destruct Hp23 as [-> | [-> | ->]]; [done | right; by left | right; by right].
Qed.

Lemma paint_repainted (m : mask) (colour : pixel) (f : ndarray) :
  colour = green \/ colour = white -> repainted f (paint m colour f).
Proof.
  intros Hc. unfold repainted, paint. apply Forall2_imap. intros r row.
  apply Forall2_imap. intros c p. destruct (m (Z.of_nat c) (Z.of_nat r)); [by right | by left].
Qed.

Lemma drawn_on_refl (frame : loc) (σ : store) : drawn_on frame σ σ.
Proof.
  split; [done|]. destruct (σ !! frame); constructor. apply repainted_refl.
Qed.

Lemma drawn_on_trans (frame : loc) (σ1 σ2 σ3 : store) :
  drawn_on frame σ1 σ2 -> drawn_on frame σ2 σ3 -> drawn_on frame σ1 σ3.
Proof.
  intros [Hother12 Hf12] [Hother23 Hf23]. split.
  - intros l Hl. by rewrite Hother23, Hother12.
  - destruct Hf12; inversion Hf23; simplify_eq; constructor.
    by eapply repainted_trans.
Qed.

Lemma alter_paint_drawn_on (m : mask) (colour : pixel) (frame : loc) (σ : store) :
  colour = green \/ colour = white ->
  drawn_on frame σ (alter (paint m colour) frame σ).
Proof.
  intros Hc. split.
  - intros l Hl. by rewrite lookup_alter_ne.
  - rewrite lookup_alter_eq. destruct (σ !! frame); constructor.
    by apply paint_repainted.
Qed.

Lemma paint_pixel_at (m : mask) (colour : pixel) (f : ndarray) (c r : nat) :
  pixel_at (paint m colour f) c r
  = (fun p => if m (Z.of_nat c) (Z.of_nat r) then colour else p) <$> pixel_at f c r.
Proof.
  unfold pixel_at, paint, ndarray in *. rewrite list_lookup_imap.
  destruct (f !! r) as [row|]; simpl; [|done]. by rewrite list_lookup_imap.
Qed.

Lemma repainted_pixel_at (f f' : ndarray) (c r : nat) :
  repainted f f' -> is_Some (pixel_at f c r) -> is_Some (pixel_at f' c r).
Proof.
  unfold repainted, pixel_at, ndarray in *. intros Hf [p Hp].
  destruct (f !! r) as [row|] eqn:Hrow; simpl in Hp; [|done].
  destruct (Forall2_lookup_l _ _ _ _ _ Hf Hrow) as (row' & -> & Hrows). simpl.
  destruct (Forall2_lookup_l _ _ _ _ _ Hrows Hp) as (p' & -> & _). by exists p'.
Qed.

Lemma alter_paint_keeps_mark (m : mask) (colour : pixel) (σ : store) (frame : loc)
    (c r : nat) :
  drawn_colour colour -> marked σ frame c r ->
  marked (alter (paint m colour) frame σ) frame c r.
Proof.
  intros Hc (f & p & Hσ & Hp & Hdrawn).
  exists (paint m colour f), (if m (Z.of_nat c) (Z.of_nat r) then colour else p).
  split; [by rewrite lookup_alter_eq, Hσ|].
  split; [by rewrite paint_pixel_at, Hp|].
  by destruct (m (Z.of_nat c) (Z.of_nat r)).
Qed.

Lemma alter_paint_marks (m : mask) (colour : pixel) (σ : store) (frame : loc)
    (f : ndarray) (c r : nat) :
  drawn_colour colour -> m (Z.of_nat c) (Z.of_nat r) = true ->
  σ !! frame = Some f -> is_Some (pixel_at f c r) ->
  marked (alter (paint m colour) frame σ) frame c r.
Proof.
  intros Hc Hm Hσ [p Hp]. exists (paint m colour f), colour.
  split; [by rewrite lookup_alter_eq, Hσ|].
  split; [by rewrite paint_pixel_at, Hp; simpl; rewrite Hm | done].
Qed.

Section Drawing.
Context `{Collaborators}.
Import FEREngine.

Lemma draw_probabilities_drawn_on (frame : loc) (x : Z) (emotions : dist)
    (σ : store) (y_offset : Z) :
  drawn_on frame σ (draw_probabilities frame x emotions σ y_offset).1.
Proof.
  revert σ y_offset. induction emotions as [|[emotion prob] emotions IH];
    intros σ y_offset; simpl.
  - apply drawn_on_refl.
  - unfold cv2_putText. destruct (is_point _); simpl; [|apply drawn_on_refl].
    eapply drawn_on_trans; [|apply IH].
    apply alter_paint_drawn_on. by right.
Qed.

Lemma draw_probabilities_outcome (frame : loc) (x : Z) (emotions : dist)
    (σ : store) (y_offset : Z) :
  (draw_probabilities frame x emotions σ y_offset).2
  = if forallb is_point (line_points x y_offset (length emotions))
    then Ok tt else Raise Cv2Error.
Proof.
  revert σ y_offset. induction emotions as [|[emotion prob] emotions IH];
    intros σ y_offset; simpl; [done|].
  unfold cv2_putText. destruct (is_point _); simpl; [apply IH | done].
Qed.

Lemma draw_probabilities_keeps_mark (frame : loc) (x : Z) (emotions : dist)
    (σ : store) (y_offset : Z) (c r : nat) :
  marked σ frame c r ->
  marked (draw_probabilities frame x emotions σ y_offset).1 frame c r.
Proof.
  revert σ y_offset.
  induction emotions as [|[emotion prob] emotions IH]; intros σ y_offset Hm; simpl; [done|].
  unfold cv2_putText. destruct (is_point _); simpl; [|done].
  apply IH, alter_paint_keeps_mark; [by right | done].
Qed.

Lemma draw_result_drawn_on (σ : store) (frame : loc) (r : face_result) :
  drawn_on frame σ (draw_result σ frame r).1.
Proof.
  unfold draw_result, cv2_rectangle, cv2_putText. destruct (bbox r) as [[[x y] w] h].
  destruct (_ && _); simpl; [|apply drawn_on_refl].
  destruct (is_point _); simpl.
  - eapply drawn_on_trans; [|apply draw_probabilities_drawn_on].
    eapply drawn_on_trans; apply alter_paint_drawn_on; by left.
  - apply alter_paint_drawn_on. by left.
Qed.

(** The drawing of a result raises exactly when one of its points is not
    a pair of C [int], and then with [cv2.error]. *)
Lemma draw_result_outcome (σ : store) (frame : loc) (r : face_result) :
  (draw_result σ frame r).2 = if result_drawable r then Ok tt else Raise Cv2Error.
Proof.
  unfold draw_result, result_drawable, drawable, draw_points, cv2_rectangle, cv2_putText.
  destruct (bbox r) as [[[x y] w] h]. cbn [forallb app].
  destruct (is_point (x, y)); simpl; [|done].
  destruct (is_point (x + w, y + h)%Z); simpl; [|done].
  destruct (is_point (x, y - 10)%Z); simpl; [|done].
  apply draw_probabilities_outcome.
Qed.

Lemma draw_result_keeps_mark (σ : store) (frame : loc) (r : face_result) (c row : nat) :
  marked σ frame c row -> marked (draw_result σ frame r).1 frame c row.
Proof.
  intros Hm. unfold draw_result, cv2_rectangle, cv2_putText.
  destruct (bbox r) as [[[x y] w] h].
  destruct (_ && _); simpl; [|done].
  destruct (is_point _); simpl.
  - apply draw_probabilities_keeps_mark.
    do 2 (apply alter_paint_keeps_mark; [by left|]). done.
  - by apply alter_paint_keeps_mark; [left|].
Qed.

(** Once the corners of the rectangle are accepted, the pixels it covers
    are drawn, whatever the calls after it do. *)
Lemma draw_result_marks (σ : store) (frame : loc) (r : face_result)
    (f : ndarray) (x y w h : Z) (c row : nat) :
  bbox r = (x, y, w, h) ->
  is_point (x, y) = true -> is_point (x + w, y + h)%Z = true ->
  σ !! frame = Some f -> is_Some (pixel_at f c row) ->
  outlined (bbox r) c row ->
  marked (draw_result σ frame r).1 frame c row.
Proof.
  intros Hbox H1 H2 Hσ Hp Hmask. unfold draw_result, cv2_rectangle, cv2_putText, outlined in *.
  rewrite Hbox in *. rewrite H1, H2. simpl.
  assert (Hrect : marked (alter (paint (rectangle_mask (x, y) (x + w, y + h)%Z 2) green)
                                frame σ) frame c row)
    by (eapply alter_paint_marks; [by left | done..]).
  destruct (is_point (x, y - 10)%Z); simpl; [|done].
  apply draw_probabilities_keeps_mark, alter_paint_keeps_mark; [by left | done].
Qed.

Lemma result_drawable_corners (r : face_result) (x y w h : Z) :
  bbox r = (x, y, w, h) -> result_drawable r = true ->
  is_point (x, y) = true /\ is_point (x + w, y + h)%Z = true.
Proof.
  unfold result_drawable, drawable, draw_points. intros ->. cbn [forallb app].
  intros Hd. apply andb_prop in Hd as [H1 Hd]. apply andb_prop in Hd as [H2 _]. done.
Qed.

End Drawing.

(** ** The engine *)

Section EngineProperties.
Context `{Collaborators}.
Import FEREngine.

Lemma analyze_emotion_returns (face_img : ndarray) :
  exists emotions, analyze_emotion face_img = Ok emotions.
Proof.
  unfold analyze_emotion, try_except.
  destruct (analyze_emotion_body face_img); eauto.
Qed.

Lemma analyze_emotion_failure (face_img : ndarray) :
  classifier_failure face_img -> analyze_emotion face_img = Ok [].
Proof.
  unfold analyze_emotion, analyze_emotion_body, cvtColor_BGR2RGB.
  intros [Hempty | rgb e Hrgb Hraise | rgb r Hrgb Hres Hr].
  - by rewrite Hempty.
  - unfold cvtColor_BGR2RGB in Hrgb. destruct (is_empty_image face_img); [done|].
    simplify_eq/=. by rewrite Hraise.
  - unfold cvtColor_BGR2RGB in Hrgb. destruct (is_empty_image face_img); [done|].
    simplify_eq/=. rewrite Hres.
    destruct Hr as [-> | [-> | [-> | [rs ->]]]]; reflexivity.
Qed.

Lemma analyze_emotion_classified (face_img : ndarray) (raw : dist) :
  classified face_img raw -> analyze_emotion face_img = Ok (remap_distribution raw).
Proof.
  unfold analyze_emotion, analyze_emotion_body.
  intros (rgb & r & Hrgb & Hres & Hr). rewrite Hrgb. simpl. rewrite Hres.
  destruct Hr as [-> | [rs ->]]; reflexivity.
Qed.

Lemma remap_distribution_nonempty (raw : dist) :
  raw <> [] -> remap_distribution raw <> [].
Proof.
  intros Hraw. unfold remap_distribution.
  assert (Hm : merge_labels raw <> []) by (by rewrite merge_labels_nil).
  destruct (Qltb 0 (pysum (dict_values (merge_labels raw)))); [|done].
  destruct (merge_labels raw); [done | discriminate].
Qed.

Lemma detect_faces_reads (σ : store) (frame : loc) (face_boxes : list pixel_box) :
  detect_faces σ frame = Ok face_boxes -> exists f, σ !! frame = Some f.
Proof.
  unfold detect_faces, read. destruct (σ !! frame); [eauto | done].
Qed.

Lemma drawn_on_lookup (frame : loc) (σ σ' : store) (f : ndarray) :
  drawn_on frame σ σ' -> σ !! frame = Some f ->
  exists f', σ' !! frame = Some f' /\ repainted f f'.
Proof.
  intros [_ Hf] Hσ. rewrite Hσ in Hf. inversion Hf; eauto.
Qed.

(** One iteration of the loop, on a frame that is in the store: the crop
    is classified, and the result is returned unless its drawing raises. *)
Lemma process_face_spec (σ : store) (frame : loc) (f : ndarray) (box : pixel_box) :
  σ !! frame = Some f ->
  exists emotions,
    analyze_emotion (face_roi f box) = Ok emotions
    /\ process_face σ frame box
       = ((draw_result σ frame (FaceResult box emotions (dominant emotions))).1,
          if drawable box (length emotions)
          then Ok (FaceResult box emotions (dominant emotions))
          else Raise Cv2Error).
Proof.
  intros Hσ. unfold process_face, read. rewrite Hσ.
  destruct (analyze_emotion_returns (face_roi f box)) as [emotions Hem].
  exists emotions. rewrite Hem. split; [done|].
  set (r := FaceResult box emotions (dominant emotions)).
  pose proof (draw_result_outcome σ frame r) as Hout.
  unfold result_drawable in Hout. simpl in Hout.
  destruct (draw_result σ frame r) as [σ' [[]|e]]; simpl in *;
    destruct (drawable box (length emotions)); by simplify_eq.
Qed.

(** The loop.  Either it returns one result per box, in the order of the
    boxes, appended to the results so far, each of them drawn; or it
    raises [cv2.error] at the first box whose drawing has a point that is
    not a pair of C [int].  All drawing goes to the array at [frame], and
    what is drawn stays drawn. *)
Lemma process_faces_spec (face_boxes : list pixel_box) (σ : store) (frame : loc)
    (f : ndarray) (results : list face_result) :
  σ !! frame = Some f ->
  exists σ',
    (process_faces σ frame face_boxes results).1 = σ'
    /\ drawn_on frame σ σ'
    /\ (forall c row, marked σ frame c row -> marked σ' frame c row)
    /\ ((exists new,
           process_faces σ frame face_boxes results = (σ', Ok (results ++ new))
           /\ bbox <$> new = face_boxes
           /\ Forall (fun r => dominant_emotion r = dominant (emotions r)) new
           /\ Forall (fun r => result_drawable r = true) new
           /\ Forall (analysed f) new
           /\ (face_boxes = [] -> σ' = σ)
           /\ (forall r c row,
                 r ∈ new -> is_Some (pixel_at f c row) -> outlined (bbox r) c row ->
                 marked σ' frame c row))
        \/ (exists drawn r rest,
              process_faces σ frame face_boxes results = (σ', Raise Cv2Error)
              /\ face_boxes = (bbox <$> drawn) ++ bbox r :: rest
              /\ Forall (fun r => result_drawable r = true) drawn
              /\ Forall (analysed f) (drawn ++ [r])
              /\ result_drawable r = false)).
Proof.
  revert σ f results.
  induction face_boxes as [|box face_boxes IH]; intros σ f results Hσ; simpl.
  - exists σ. split; [done|]. split; [apply drawn_on_refl|]. split; [done|].
    left. exists []. rewrite app_nil_r. repeat (split; [done|]).
    intros r c row Hr. by apply elem_of_nil in Hr.
  - destruct (process_face_spec σ frame f box Hσ) as (emotions & Hem & ->).
    set (r := FaceResult box emotions (dominant emotions)).
    assert (Hr : analysed f r) by (exists f; split; [apply repainted_refl | done]).
    pose proof (draw_result_drawn_on σ frame r) as Hdraw.
    pose proof (draw_result_keeps_mark σ frame r) as Hkeep.
    destruct (drawn_on_lookup _ _ _ _ Hdraw Hσ) as (f1 & Hσ1 & Hf1).
    assert (Hlift : forall l, Forall (analysed f1) l -> Forall (analysed f) l).
    { intros l Hl. eapply Forall_impl; [exact Hl|]. intros r' (f' & Hf' & Hr').
      exists f'. split; [by eapply repainted_trans | done]. }
    destruct (drawable box (length emotions)) eqn:Hdrawable.
    + destruct (IH _ f1 (results ++ [r]) Hσ1)
        as (σ' & Hfst & Hdrawn & Hkeep' & Hcases).
      exists σ'. split; [done|]. split; [by eapply drawn_on_trans|].
      split; [intros c row Hm; by apply Hkeep', Hkeep|].
      destruct Hcases as [(new & -> & Hboxes & Hdom & Hall & Han & _ & Hmarks)
                          | (drawn & r0 & rest & -> & Hboxes & Hall & Han & Hr0)].
      * left. exists (r :: new). rewrite <- app_assoc. simpl.
        split; [done|]. split; [by rewrite <- Hboxes|].
        split; [by constructor|]. split; [by constructor|].
        split; [constructor; [done | by apply Hlift]|]. split; [done|].
        intros r' c row Hr' Hp Hmask. apply elem_of_cons in Hr' as [-> | Hr'].
        -- apply Hkeep'. destruct box as [[[x y] w] h].
           destruct (result_drawable_corners r x y w h eq_refl Hdrawable) as [H1 H2].
           by eapply (draw_result_marks σ frame r f x y w h).
        -- eapply Hmarks; [done| |done]. by eapply repainted_pixel_at.
      * right. exists (r :: drawn), r0, rest. simpl.
        split; [done|]. split; [by rewrite Hboxes|]. split; [by constructor|].
        split; [constructor; [done | by apply Hlift] | done].
    + exists (draw_result σ frame r).1. split; [done|]. split; [done|]. split; [done|].
      right. exists [], r, face_boxes. simpl. repeat (split; [done|]).
      split; [by repeat constructor | done].
Qed.

(** [process_frame], whatever the detector and the classifier do. *)
Lemma process_frame_spec (σ : store) (frame : loc) :
  (exists e, detect_faces σ frame = Raise e /\ process_frame σ frame = (σ, Raise e))
  \/ (exists face_boxes σ' f,
        detect_faces σ frame = Ok face_boxes
        /\ σ !! frame = Some f
        /\ (process_frame σ frame).1 = σ'
        /\ drawn_on frame σ σ'
        /\ (forall c row, marked σ frame c row -> marked σ' frame c row)
        /\ ((exists results,
               process_frame σ frame = (σ', Ok (frame, results))
               /\ bbox <$> results = face_boxes
               /\ Forall (fun r => dominant_emotion r = dominant (emotions r)) results
               /\ Forall (fun r => result_drawable r = true) results
               /\ Forall (analysed f) results
               /\ (face_boxes = [] -> σ' = σ)
               /\ (forall r c row,
                     r ∈ results -> is_Some (pixel_at f c row) -> outlined (bbox r) c row ->
                     marked σ' frame c row))
            \/ (exists drawn r rest,
                  process_frame σ frame = (σ', Raise Cv2Error)
                  /\ face_boxes = (bbox <$> drawn) ++ bbox r :: rest
                  /\ Forall (fun r => result_drawable r = true) drawn
                  /\ Forall (analysed f) (drawn ++ [r])
                  /\ result_drawable r = false))).
Proof.
  unfold process_frame. destruct (detect_faces σ frame) as [face_boxes|e] eqn:Hdet.
  - right. destruct (detect_faces_reads _ _ _ Hdet) as [f Hσ].
    destruct (process_faces_spec face_boxes σ frame f [] Hσ)
      as (σ' & Hfst & Hdrawn & Hkeep & Hcases).
    exists face_boxes, σ', f. split; [done|]. split; [done|].
    split; [by destruct (process_faces σ frame face_boxes []) as [? [?|?]]|].
    split; [done|]. split; [done|].
    destruct Hcases as [(results & -> & Hrest) | (drawn & r & rest & -> & Hrest)].
    + left. by exists results.
    + right. by exists drawn, r, rest.
  - left. by exists e.
Qed.


End EngineProperties.

(** ** What is drawn stays drawn *)

Section Marks.
Context `{Collaborators}.
Import FEREngine.

(** A run that detects a face draws its rectangle into the caller's array:
    a pixel of the frame that the rectangle of the first box covers is green
    or white after the call, whatever it was before, whatever the text
    rasteriser covers and whether or not a later drawing call raises. *)
Lemma process_frame_marks_first_box (σ : store) (frame : loc) (f : ndarray) (p : pixel)
    (x y w h : Z) (face_boxes : list pixel_box) (c r : nat) :
  σ !! frame = Some f -> pixel_at f c r = Some p ->
  detect_faces σ frame = Ok ((x, y, w, h) :: face_boxes) ->
  is_point (x, y) = true -> is_point (x + w, y + h)%Z = true ->
  rectangle_mask (x, y) (x + w, y + h)%Z 2 (Z.of_nat c) (Z.of_nat r) = true ->
  marked (process_frame σ frame).1 frame c r.
Proof.
  intros Hσ Hp Hdet H1 H2 Hmask. unfold process_frame. rewrite Hdet. simpl.
  destruct (process_face_spec σ frame f (x, y, w, h) Hσ) as (emotions & _ & ->).
  set (r1 := FaceResult (x, y, w, h) emotions (dominant emotions)).
  assert (Hdrawn : marked (draw_result σ frame r1).1 frame c r)
    by (by eapply (draw_result_marks σ frame r1 f x y w h); [..|exists p|]).
  destruct (drawable _ _); [|done].
  pose proof (draw_result_drawn_on σ frame r1) as Hdraw.
  destruct (drawn_on_lookup _ _ _ _ Hdraw Hσ) as (f1 & Hσ1 & _).
  destruct (process_faces_spec face_boxes _ frame f1 [r1] Hσ1)
    as (σ' & Hfst & _ & Hkeep & _).
  apply Hkeep in Hdrawn. rewrite <- Hfst in Hdrawn.
  by destruct (process_faces (draw_result σ frame r1).1 frame face_boxes [r1])
    as [σ'' [results|e]].
Qed.

Lemma process_frame_changes_frame (σ : store) (frame : loc) (f : ndarray) (p : pixel)
    (x y w h : Z) (face_boxes : list pixel_box) (c r : nat) :
  σ !! frame = Some f -> pixel_at f c r = Some p -> ~ drawn_colour p ->
  detect_faces σ frame = Ok ((x, y, w, h) :: face_boxes) ->
  is_point (x, y) = true -> is_point (x + w, y + h)%Z = true ->
  rectangle_mask (x, y) (x + w, y + h)%Z 2 (Z.of_nat c) (Z.of_nat r) = true ->
  (process_frame σ frame).1 !! frame <> σ !! frame.
Proof.
  intros Hσ Hp Hnot Hdet H1 H2 Hmask Heq.
  destruct (process_frame_marks_first_box σ frame f p x y w h face_boxes c r
              Hσ Hp Hdet H1 H2 Hmask) as (f' & p' & Hσ' & Hp' & Hdrawn).
  rewrite Heq, Hσ in Hσ'. injection Hσ' as <-.
  rewrite Hp in Hp'. injection Hp' as <-. by apply Hnot.
Qed.

End Marks.

(** ** Truncation *)

Lemma pyint_Qfloor (q : Q) : 0 <= q -> pyint q = Qfloor q.
Proof.
  destruct q as [n d]. unfold Qle, pyint, Qfloor. simpl. intros Hn.
  apply Z.quot_div_nonneg; lia.
Qed.

Lemma pyint_nonneg (q : Q) : 0 <= q -> (0 <= pyint q)%Z.
Proof.
  intros Hq. rewrite pyint_Qfloor by done.
  change 0%Z with (Qfloor 0). by apply Qfloor_resp_le.
Qed.

Lemma pyint_pos (q : Q) : 1 <= q -> (0 < pyint q)%Z.
Proof.
  intros Hq. rewrite pyint_Qfloor by (apply Qle_trans with 1; [done | exact Hq]).
  apply Z.lt_le_trans with (Qfloor 1); [done|]. by apply Qfloor_resp_le.
Qed.

(** Two truncated non-negative lengths fit where their sum fits. *)
Lemma pyint_sum_le (a b : Q) (n : Z) :
  0 <= a -> 0 <= b -> a + b <= inject_Z n -> (pyint a + pyint b <= n)%Z.
Proof.
  intros Ha Hb Hab. rewrite !pyint_Qfloor by done.
  rewrite Zle_Qle, inject_Z_plus.
  pose proof (Qfloor_le a). pose proof (Qfloor_le b). lra.
Qed.

(** ** Detection *)

Lemma to_pixels_in_frame (h w : Z) (d : relative_bounding_box) :
  (0 <= h)%Z -> (0 <= w)%Z ->
  inside_unit_square h w d -> box_in_frame h w (FEREngine.to_pixels h w d).
Proof.
  intros Hh Hw (Hx & Hy & Hxw & Hyh & Hbw & Hbh).
  rewrite Zle_Qle in Hh, Hw. change (inject_Z 0) with 0 in Hh, Hw. unfold FEREngine.to_pixels, box_in_frame.
  assert (Hxs : 0 <= xmin d * inject_Z w) by (by apply Qmult_le_0_compat).
  assert (Hys : 0 <= ymin d * inject_Z h) by (by apply Qmult_le_0_compat).
  assert (Hws : 0 <= width d * inject_Z w) by lra.
  assert (Hhs : 0 <= height d * inject_Z h) by lra.
  split; [by apply pyint_pos|]. split; [by apply pyint_pos|].
  split; [by apply pyint_nonneg|]. split; [by apply pyint_nonneg|].
  assert (Hxe : (xmin d + width d) * inject_Z w <= 1 * inject_Z w)
    by (by apply Qmult_le_compat_r).
  assert (Hye : (ymin d + height d) * inject_Z h <= 1 * inject_Z h)
    by (by apply Qmult_le_compat_r).
  split; apply pyint_sum_le; try done; lra.
Qed.

Lemma shape_nonneg (f : ndarray) : (0 <= (shape f).1 /\ 0 <= (shape f).2)%Z.
Proof. unfold shape. destruct f; simpl; lia. Qed.

Section Detection.
Context `{Collaborators}.
Import FEREngine.

(** C9, amended: [detect_faces] scales each relative box of the detector
    by the frame's width and height and truncates, in the detector's
    order and without clamping.  A box is of positive size, has a
    non-negative corner and lies within the frame whenever the detector's
    relative box lies inside the unit square and covers at least one pixel
    in each direction. *)
Theorem detect_faces_scales_boxes (σ : store) (frame : loc) (f : ndarray)
    (face_boxes : list pixel_box) :
  σ !! frame = Some f ->
  detect_faces σ frame = Ok face_boxes ->
  exists rgb_frame detections,
    cvtColor_BGR2RGB f = Ok rgb_frame
    /\ face_detection_process rgb_frame = Ok detections
    /\ face_boxes = map (to_pixels (shape f).1 (shape f).2) (default [] detections)
    /\ (forall d : relative_bounding_box,
          d ∈ default [] detections ->
          inside_unit_square (shape f).1 (shape f).2 d ->
          box_in_frame (shape f).1 (shape f).2 (to_pixels (shape f).1 (shape f).2 d)).
Proof.
  intros Hσ. unfold detect_faces, read. rewrite Hσ. simpl.
  destruct (cvtColor_BGR2RGB f) as [rgb_frame|e] eqn:Hrgb; simpl; [|done].
  destruct (face_detection_process rgb_frame) as [detections|e] eqn:Hdet; simpl; [|done].
  intros [= <-]. exists rgb_frame, detections.
  split; [done|]. split; [done|]. split; [by destruct detections|].
  intros d _ Hd. destruct (shape_nonneg f). by apply to_pixels_in_frame.
Qed.

End Detection.

(** ** Results *)

Section Results.
Context `{Collaborators}.
Import FEREngine.

(** C5, amended: [analyze_emotion] always returns, and returns the empty
    distribution when the classification of the crop fails.  Hence, with
    two detected faces of which one fails and the other is given a
    non-empty raw distribution, [process_frame] returns two results, for
    the two boxes in order: the failed one with empty emotions and
    neutral dominant emotion, the other one with non-empty emotions,
    provided every point of their drawing is a pair of C [int]; otherwise
    it raises [cv2.error], the drawing being outside any [try].  The
    second crop is read after the first result was drawn. *)
Theorem classifier_failure_absorbed :
  (forall face_img : ndarray, exists emotions, analyze_emotion face_img = Ok emotions)
  /\ (forall face_img : ndarray,
        classifier_failure face_img -> analyze_emotion face_img = Ok [])
  /\ (forall (σ : store) (frame : loc) (b1 b2 : pixel_box) (f0 f1 : ndarray) (raw : dist),
        detect_faces σ frame = Ok [b1; b2] ->
        σ !! frame = Some f0 ->
        (process_face σ frame b1).1 !! frame = Some f1 ->
        raw <> [] ->
        (classifier_failure (face_roi f0 b1) /\ classified (face_roi f1 b2) raw)
        \/ (classified (face_roi f0 b1) raw /\ classifier_failure (face_roi f1 b2)) ->
        exists σ' r1 r2,
          bbox r1 = b1 /\ bbox r2 = b2
          /\ ((emotions r1 = [] /\ dominant_emotion r1 = "neutral"%string
               /\ emotions r2 = remap_distribution raw /\ emotions r2 <> [])
              \/ (emotions r1 = remap_distribution raw /\ emotions r1 <> []
                  /\ emotions r2 = []
                  /\ dominant_emotion r2 = "neutral"%string))
          /\ process_frame σ frame
             = (σ', if result_drawable r1 && result_drawable r2
                    then Ok (frame, [r1; r2]) else Raise Cv2Error)).
Proof.
  split; [apply analyze_emotion_returns|]. split; [apply analyze_emotion_failure|].
  intros σ frame b1 b2 f0 f1 raw Hdet Hσ Hσ1 Hraw Hcases.
  destruct (process_face_spec σ frame f0 b1 Hσ) as (e1 & He1 & Hface1).
  rewrite Hface1 in Hσ1. simpl in Hσ1.
  destruct (process_face_spec _ frame f1 b2 Hσ1) as (e2 & He2 & Hface2).
  set (r1 := FaceResult b1 e1 (dominant e1)) in *.
  set (r2 := FaceResult b2 e2 (dominant e2)) in *.
  exists (process_frame σ frame).1, r1, r2.
  split; [done|]. split; [done|].
  pose proof (remap_distribution_nonempty raw Hraw) as Hne.
  split.
  - destruct Hcases as [[Hfail Hok] | [Hok Hfail]];
      apply analyze_emotion_failure in Hfail;
      apply analyze_emotion_classified in Hok.
    + rewrite Hfail in He1. rewrite Hok in He2. simplify_eq. left. by repeat split.
    + rewrite Hok in He1. rewrite Hfail in He2. simplify_eq. right. by repeat split.
  - unfold process_frame, result_drawable. rewrite Hdet. simpl. rewrite Hface1.
    destruct (drawable b1 (length e1)); simpl; [|done]. rewrite Hface2.
    by destruct (drawable b2 (length e2)).
Qed.

(** C6: in every result of [process_frame], the dominant emotion is the
    first label, in the order of the distribution, whose probability is
    the greatest, and the confidence of the history entry made from the
    result is that probability; with no emotions, the dominant emotion is
    neutral and the confidence 0. *)
Theorem dominant_emotion_first_argmax (σ σ' : store) (frame annotated : loc)
    (results : list face_result) :
  process_frame σ frame = (σ', Ok (annotated, results)) ->
  forall r : face_result, r ∈ results ->
    (emotions r = [] ->
       dominant_emotion r = "neutral"%string
       /\ forall now, LiveCameraFER.emotion (LiveCameraFER.entry_of r now) = "neutral"%string
                      /\ LiveCameraFER.confidence (LiveCameraFER.entry_of r now) = 0)
    /\ (emotions r <> [] ->
          exists (i : nat) (p : Q),
            emotions r !! i = Some (dominant_emotion r, p)
            /\ (forall (j : nat) (k : string) (q : Q),
                  emotions r !! j = Some (k, q) -> q <= p)
            /\ (forall (j : nat) (k : string) (q : Q),
                  (j < i)%nat -> emotions r !! j = Some (k, q) -> q < p)
            /\ forall now, LiveCameraFER.confidence (LiveCameraFER.entry_of r now) = p).
Proof.
  intros Hrun r Hr.
  assert (Hdom : dominant_emotion r = dominant (emotions r)).
  { destruct (process_frame_spec σ frame)
      as [(e & _ & Heq)
         | (bs & σ1 & f & _ & _ & _ & _ & _ &
            [(rs & Heq & _ & Hall & _) | (drawn & r0 & rest & Heq & _)])];
      rewrite Heq in Hrun; simplify_eq.
    rewrite Forall_forall in Hall. by apply Hall. }
  unfold LiveCameraFER.entry_of, LiveCameraFER.confidence_of. simpl.
  rewrite Hdom. destruct (emotions r) as [|item items] eqn:Hem.
  - split; [|done]. intros _. by split.
  - split; [done|]. intros _. simpl.
    destruct (max_from_first_max snd items item) as (i & Hi & Hall & Hbefore).
    set (m := max_from snd item items) in *.
    exists i, m.2. split; [by rewrite Hi; destruct m|].
    split; [intros j k q Hj; apply (Hall j (k, q) Hj)|].
    split; [intros j k q Hlt Hj; apply (Hbefore j (k, q) Hlt Hj)|].
    intros _. unfold dict_values. csimpl. apply max_from_values.
Qed.

End Results.

(** ** The rolling history *)

(** A deque within its capacity holds, after more appends, the last
    [maxlen] items of everything it held and was given, in order. *)
Lemma deque_append_fold {A} (maxlen : nat) (xs d : list A) :
  (length d <= maxlen)%nat ->
  fold_left (deque_append maxlen) xs d
  = drop (length (d ++ xs) - maxlen) (d ++ xs).
Proof.
  revert d. induction xs as [|x xs IH]; intros d Hd; simpl.
  - rewrite app_nil_r. replace (length d - maxlen)%nat with 0%nat by lia. done.
  - unfold deque_append at 2.
    assert (Hlen : length (d ++ [x]) = S (length d)) by (rewrite length_app; simpl; lia).
    rewrite (cons_middle x d xs), app_assoc.
    destruct (maxlen <? length (d ++ [x]))%nat eqn:Hfull.
    + apply Nat.ltb_lt in Hfull.
      rewrite IH by (rewrite length_drop; lia).
      rewrite <- drop_app_le by (rewrite Hlen; lia).
      rewrite drop_drop. f_equal.
      rewrite length_drop, !length_app. rewrite length_app in Hfull. simpl in *. lia.
    + apply Nat.ltb_ge in Hfull. by rewrite IH by lia.
Qed.

Lemma deque_append_length {A} (maxlen : nat) (d : list A) (x : A) :
  (length d <= maxlen)%nat -> (length (deque_append maxlen d x) <= maxlen)%nat.
Proof.
  intros Hd. unfold deque_append.
  assert (Hlen : length (d ++ [x]) = S (length d)) by (rewrite length_app; simpl; lia).
  destruct (maxlen <? length (d ++ [x]))%nat eqn:Hfull.
  - rewrite length_drop. lia.
  - apply Nat.ltb_ge in Hfull. lia.
Qed.

Lemma deque_append_fold_length {A} (maxlen : nat) (xs d : list A) :
  (length d <= maxlen)%nat ->
  (length (fold_left (deque_append maxlen) xs d) <= maxlen)%nat.
Proof.
  revert d. induction xs as [|x xs IH]; intros d Hd; simpl; [done|].
  by apply IH, deque_append_length.
Qed.

Section History.
Context `{Collaborators}.
Import LiveCameraFER.

Lemma record_results_history (results : list FEREngine.face_result) (app : app_state) :
  emotion_history (fold_left record_result results app)
  = fold_left (deque_append history_maxlen) (entries_of app results) (emotion_history app).
Proof.
  unfold entries_of. revert app.
  induction results as [|r results IH]; intros app; csimpl; [done|].
  rewrite IH. simpl. rewrite Nat.add_0_r. f_equal.
  apply imap_ext. intros i x _. simpl. do 2 f_equal. lia.
Qed.

Lemma process_frame_history (σ : store) (app : app_state) (frame : loc) :
  exists results,
    emotion_history (process_frame σ app frame).1.2
    = fold_left (deque_append history_maxlen) (entries_of app results) (emotion_history app).
Proof.
  unfold process_frame.
  destruct (FEREngine.process_frame σ frame) as [σ' [[annotated results]|e]]; simpl.
  - exists results. apply record_results_history.
  - by exists [].
Qed.

(** The code's append, within the capacity: the new entry goes to the
    right end, and the oldest entry leaves when that makes 101. *)
Lemma record_result_history (app : app_state) (r : FEREngine.face_result) :
  (length (emotion_history app) <= 100)%nat ->
  emotion_history (record_result app r)
  = (if (length (emotion_history app) <? 100)%nat then emotion_history app
     else drop 1 (emotion_history app))
    ++ [entry_of r (time_time (time_calls app))].
Proof.
  intros Hlen. unfold record_result, deque_append, history_maxlen. simpl.
  rewrite length_app. simpl.
  destruct (length (emotion_history app) <? 100)%nat eqn:Hlt.
  - apply Nat.ltb_lt in Hlt.
    replace (100 <? length (emotion_history app) + 1)%nat with false
      by (symmetry; apply Nat.ltb_ge; lia). done.
  - apply Nat.ltb_ge in Hlt.
    replace (100 <? length (emotion_history app) + 1)%nat with true
      by (symmetry; apply Nat.ltb_lt; lia).
    rewrite drop_app_le by lia. done.
Qed.

Lemma record_results_fifo (results : list FEREngine.face_result) (app : app_state) :
  (length (emotion_history app) <= 100)%nat ->
  emotion_history (fold_left record_result results app)
  = drop (length (emotion_history app ++ entries_of app results) - 100)
         (emotion_history app ++ entries_of app results).
Proof.
  intros Hlen. rewrite record_results_history. by apply deque_append_fold.
Qed.

Lemma entries_of_length (app : app_state) (results : list FEREngine.face_result) :
  length (entries_of app results) = length results.
Proof. unfold entries_of. apply length_imap. Qed.

(** C7: the history is a FIFO of capacity 100.  Appends never take it
    over 100 entries, [process_frame] included; the appends of any
    entries to the empty history leave the last 100 of them in their
    order; of 150 entries, those after the first 50.  This is so of the
    deque and of the code's own append: [record_result] puts the entry of
    a result at the right end and drops the oldest entry when the history
    is full, the entries of any results recorded into the empty history
    are its last 100 in order, and [process_frame] leaves the last 100 of
    the earlier entries followed by those of its results. *)
Theorem history_fifo_capacity :
  (forall (es h : list history_entry),
      (length h <= 100)%nat ->
      (length (fold_left (deque_append history_maxlen) es h) <= 100)%nat)
  /\ (forall (σ : store) (app : app_state) (frame : loc),
        (length (emotion_history app) <= 100)%nat ->
        (length (emotion_history (process_frame σ app frame).1.2) <= 100)%nat)
  /\ (forall es : list history_entry,
        fold_left (deque_append history_maxlen) es (emotion_history init)
        = drop (length es - 100) es)
  /\ (forall es : list history_entry,
        length es = 150%nat ->
        fold_left (deque_append history_maxlen) es (emotion_history init) = drop 50 es
        /\ length (drop 50 es) = 100%nat)
  /\ (forall (app : app_state) (r : FEREngine.face_result),
        (length (emotion_history app) <= 100)%nat ->
        emotion_history (record_result app r)
        = (if (length (emotion_history app) <? 100)%nat then emotion_history app
           else drop 1 (emotion_history app))
          ++ [entry_of r (time_time (time_calls app))])
  /\ (forall results : list FEREngine.face_result,
        emotion_history (fold_left record_result results init)
        = drop (length results - 100) (entries_of init results))
  /\ (forall results : list FEREngine.face_result,
        length results = 150%nat ->
        emotion_history (fold_left record_result results init)
        = drop 50 (entries_of init results)
        /\ length (emotion_history (fold_left record_result results init)) = 100%nat)
  /\ (forall (σ : store) (app : app_state) (frame : loc),
        (length (emotion_history app) <= 100)%nat ->
        let results := (process_frame σ app frame).2.2 in
        let all := emotion_history app ++ entries_of app results in
        emotion_history (process_frame σ app frame).1.2 = drop (length all - 100) all).
Proof.
  split; [|split; [|split; [|split; [|split; [|split; [|split]]]]]].
  - intros es h Hh. by apply deque_append_fold_length.
  - intros σ app frame Happ.
    destruct (process_frame_history σ app frame) as [results ->].
    by apply deque_append_fold_length.
  - intros es. rewrite deque_append_fold by (simpl; lia). done.
  - intros es Hes. rewrite deque_append_fold by (simpl; lia). simpl.
    rewrite length_drop, Hes. done.
  - apply record_result_history.
  - intros results. rewrite record_results_fifo by (simpl; lia). simpl.
    by rewrite entries_of_length.
  - intros results Hlen. rewrite record_results_fifo by (simpl; lia). simpl.
    rewrite length_drop, !entries_of_length, Hlen. done.
  - intros σ app frame Hlen. unfold process_frame.
    destruct (FEREngine.process_frame σ frame) as [σ' [[annotated results]|e]]; simpl.
    + by apply record_results_fifo.
    + rewrite app_nil_r.
      replace (length (emotion_history app) - 100)%nat with 0%nat by lia. done.
Qed.

End History.

(** ** Statistics *)

Lemma count_one_get (e k : string) (counts : pydict Z) :
  dict_get e (count_one counts k)
  = if decide (k = e) then Some (default 0 (dict_get e counts) + 1)%Z
    else dict_get e counts.
Proof.
  unfold count_one. case_decide as Hk.
  - subst k. apply dict_get_set_eq.
  - by apply dict_get_set_ne.
Qed.

Lemma occurrences_cons (e k : string) (labels : list string) :
  occurrences e (k :: labels)
  = ((if decide (k = e) then 1 else 0) + occurrences e labels)%Z.
Proof.
  unfold occurrences. case_decide.
  - rewrite filter_cons_True by done. simpl. lia.
  - rewrite filter_cons_False by done. lia.
Qed.

Lemma occurrences_nonneg (e : string) (labels : list string) :
  (0 <= occurrences e labels)%Z.
Proof. unfold occurrences. lia. Qed.

(** The counting loop, started from [counts]. *)
Lemma tally_get (e : string) (labels : list string) (counts : pydict Z) :
  dict_get e (fold_left count_one labels counts)
  = match dict_get e counts with
    | Some c => Some (c + occurrences e labels)%Z
    | None => if decide (occurrences e labels = 0%Z) then None
              else Some (occurrences e labels)
    end.
Proof.
  revert counts. induction labels as [|k labels IH]; intros counts; simpl.
  - destruct (dict_get e counts); [f_equal; unfold occurrences; simpl; lia | done].
  - rewrite IH, count_one_get, occurrences_cons.
    pose proof (occurrences_nonneg e labels).
    destruct (decide (k = e)) as [Hk|Hk]; destruct (dict_get e counts) as [c|]; simpl;
      repeat case_decide; try lia; try done; f_equal; lia.
Qed.

Lemma fold_left_labels {A} (label : A -> string) (xs : list A) (counts : pydict Z) :
  fold_left (fun counts x => count_one counts (label x)) xs counts
  = fold_left count_one (label <$> xs) counts.
Proof.
  revert counts. induction xs as [|x xs IH]; intros counts; csimpl; [done | apply IH].
Qed.

Lemma dict_get_fractions (total : Z) (e : string) (counts : pydict Z) :
  dict_get e (fractions total counts)
  = (fun c => inject_Z c / inject_Z total) <$> dict_get e counts.
Proof.
  unfold fractions. induction counts as [|[k c] counts IH]; simpl; [done|].
  destruct (decide (k = e)); [done | apply IH].
Qed.

Lemma fraction_of_Permutation (e : string) (l1 l2 : list string) :
  l1 ≡ₚ l2 -> fraction_of e l1 = fraction_of e l2.
Proof.
  intros Hp. unfold fraction_of, occurrences.
  rewrite (Permutation_length Hp).
  by rewrite (Permutation_length (filter_Permutation (fun l => l = e) _ _ Hp)).
Qed.

Lemma live_statistics_get (app : LiveCameraFER.app_state) (e : string) :
  dict_get e (LiveCameraFER.get_emotion_statistics app)
  = fraction_of e (LiveCameraFER.emotion <$> LiveCameraFER.emotion_history app).
Proof.
  unfold LiveCameraFER.get_emotion_statistics.
  destruct (LiveCameraFER.emotion_history app) as [|entry h] eqn:Hh; [done|].
  rewrite dict_get_fractions, fold_left_labels, tally_get. simpl dict_get.
  unfold fraction_of. rewrite length_fmap. by case_decide.
Qed.

Lemma engine_statistics_get (results : list FEREngine.face_result) (e : string) :
  dict_get e (FEREngine.get_emotion_statistics results)
  = fraction_of e (FEREngine.dominant_emotion <$> results).
Proof.
  unfold FEREngine.get_emotion_statistics.
  destruct results as [|r results]; [done|].
  replace (Z.of_nat (length (r :: results)) =? 0)%Z with false
    by (symmetry; apply Z.eqb_neq; simpl; lia).
  rewrite dict_get_fractions, fold_left_labels, tally_get. simpl dict_get.
  unfold fraction_of. rewrite length_fmap. by case_decide.
Qed.

Lemma live_statistics_labels (app : LiveCameraFER.app_state) :
  LiveCameraFER.get_emotion_statistics app
  = match LiveCameraFER.emotion <$> LiveCameraFER.emotion_history app with
    | [] => []
    | labels => fractions (Z.of_nat (length labels)) (fold_left count_one labels [])
    end.
Proof.
  unfold LiveCameraFER.get_emotion_statistics.
  destruct (LiveCameraFER.emotion_history app) as [|entry h]; [done|].
  rewrite fold_left_labels, <- (length_fmap LiveCameraFER.emotion). done.
Qed.

(** C8: the statistics depend on the history only.  On an empty history
    they are the empty mapping; on a non-empty one a label that occurs holds
    its number of occurrences divided by the length of the history, and a
    label that does not occur is absent.  Ten entries, six happy then four
    sad, give happy 0.6 and sad 0.4. *)
Theorem statistics_of_snapshot :
  (forall app1 app2 : LiveCameraFER.app_state,
      LiveCameraFER.emotion_history app1 = LiveCameraFER.emotion_history app2 ->
      LiveCameraFER.get_emotion_statistics app1 = LiveCameraFER.get_emotion_statistics app2)
  /\ (forall app : LiveCameraFER.app_state,
        LiveCameraFER.emotion_history app = [] ->
        LiveCameraFER.get_emotion_statistics app = [])
  /\ (forall (app : LiveCameraFER.app_state) (e : string),
        LiveCameraFER.emotion_history app <> [] ->
        dict_get e (LiveCameraFER.get_emotion_statistics app)
        = let count := occurrences e (LiveCameraFER.emotion <$> LiveCameraFER.emotion_history app) in
          if decide (count = 0%Z) then None
          else Some (inject_Z count
                     / inject_Z (Z.of_nat (length (LiveCameraFER.emotion_history app)))))
  /\ (forall app : LiveCameraFER.app_state,
        LiveCameraFER.emotion <$> LiveCameraFER.emotion_history app
        = replicate 6 "happy"%string ++ replicate 4 "sad"%string ->
        LiveCameraFER.get_emotion_statistics app = [("happy", 0.6); ("sad", 0.4)]%string).
Proof.
  split; [|split; [|split]].
  - intros app1 app2 Heq. unfold LiveCameraFER.get_emotion_statistics. by rewrite Heq.
  - intros app Hnil. unfold LiveCameraFER.get_emotion_statistics. by rewrite Hnil.
  - intros app e _. rewrite live_statistics_get. unfold fraction_of.
    by rewrite length_fmap.
  - intros app Hlabels. rewrite live_statistics_labels, Hlabels. reflexivity.
Qed.

(** C10: the two statistics functions agree.  On results and a history
    with the same labels up to order they return equal mappings; with the
    same labels in the same order, the same mapping key for key in order. *)
Theorem statistics_implementations_agree
    (results : list FEREngine.face_result) (app : LiveCameraFER.app_state) :
  (FEREngine.dominant_emotion <$> results
     ≡ₚ LiveCameraFER.emotion <$> LiveCameraFER.emotion_history app ->
   dict_same (FEREngine.get_emotion_statistics results)
             (LiveCameraFER.get_emotion_statistics app))
  /\ (FEREngine.dominant_emotion <$> results
        = LiveCameraFER.emotion <$> LiveCameraFER.emotion_history app ->
      FEREngine.get_emotion_statistics results = LiveCameraFER.get_emotion_statistics app).
Proof.
  split.
  - intros Hp e. rewrite engine_statistics_get, live_statistics_get.
    by apply fraction_of_Permutation.
  - intros Heq. rewrite live_statistics_labels, <- Heq.
    unfold FEREngine.get_emotion_statistics.
    destruct results as [|r results]; [done|].
    replace (Z.of_nat (length (r :: results)) =? 0)%Z with false
      by (symmetry; apply Z.eqb_neq; simpl; lia).
    rewrite fold_left_labels, <- (length_fmap FEREngine.dominant_emotion). done.
Qed.

(** ** A run on concrete collaborators *)

Example demo_run :
  @FEREngine.process_frame demo demo_store 0%nat
  = (<[0%nat := annotated_frame]> demo_store, Ok (0%nat, demo_results)).
Proof. vm_compute. reflexivity. Qed.


(** C9, as the claim states it, fails: a detection that leaves the frame on
    the left gets a negative x, and one narrower than a pixel a width of 0. *)
Lemma detect_faces_box_outside_frame :
  shape black_frame = (4, 4)%Z
  /\ @FEREngine.detect_faces demo_edge demo_store 0%nat
      = Ok [(-1, 1, 2, 2)%Z; (1, 1, 0, 2)%Z]
  /\ ~ box_in_frame 4 4 (-1, 1, 2, 2)%Z
  /\ ~ box_in_frame 4 4 (1, 1, 0, 2)%Z.
Proof.
  split; [reflexivity|]. split; [vm_compute; reflexivity|].
  split; unfold box_in_frame; lia.
Qed.

Lemma detect_faces_scales_boxes_witness :
  exists rgb_frame detections,
    cvtColor_BGR2RGB black_frame = Ok rgb_frame
    /\ @face_detection_process demo rgb_frame = Ok detections
    /\ [(0, 0, 2, 2)%Z; (2, 2, 1, 1)%Z]
       = map (FEREngine.to_pixels (shape black_frame).1 (shape black_frame).2)
             (default [] detections)
    /\ (forall d : relative_bounding_box,
          d ∈ default [] detections ->
          inside_unit_square (shape black_frame).1 (shape black_frame).2 d ->
          box_in_frame (shape black_frame).1 (shape black_frame).2
            (FEREngine.to_pixels (shape black_frame).1 (shape black_frame).2 d)).
Proof.
  apply (@detect_faces_scales_boxes demo demo_store 0%nat black_frame
           [(0, 0, 2, 2)%Z; (2, 2, 1, 1)%Z]); reflexivity.
Defined.

Lemma classifier_failure_absorbed_witness :
  exists σ' r1 r2,
    FEREngine.bbox r1 = (0, 0, 2, 2)%Z /\ FEREngine.bbox r2 = (2, 2, 1, 1)%Z
    /\ ((FEREngine.emotions r1 = [] /\ FEREngine.dominant_emotion r1 = "neutral"%string
         /\ FEREngine.emotions r2 = remap_distribution [("happy", 3); ("fear", 1)]%string
         /\ FEREngine.emotions r2 <> [])
        \/ (FEREngine.emotions r1 = remap_distribution [("happy", 3); ("fear", 1)]%string
            /\ FEREngine.emotions r1 <> []
            /\ FEREngine.emotions r2 = []
            /\ FEREngine.dominant_emotion r2 = "neutral"%string))
    /\ @FEREngine.process_frame demo demo_store 0%nat
       = (σ', if result_drawable r1 && result_drawable r2
              then Ok (0%nat, [r1; r2]) else Raise Cv2Error).
Proof.
  eapply (proj2 (proj2 (@classifier_failure_absorbed demo))
            demo_store 0%nat (0, 0, 2, 2)%Z (2, 2, 1, 1)%Z black_frame _
            [("happy", 3); ("fear", 1)]%string).
  - reflexivity.
  - reflexivity.
  - vm_compute. reflexivity.
  - discriminate.
  - right. split.
    + eexists _, _. split; [reflexivity|]. split; [reflexivity|].
      right. eexists. reflexivity.
    + eapply classifier_raises; reflexivity.
Defined.

(** C5, as the claim states it, fails: of two detected faces one is
    classified and the other one, whose crop is empty, fails
    classification, and [process_frame] raises: the rectangle of the
    second box has a corner that is not a C [int].  The first box is
    already drawn into the caller's array. *)
Lemma process_frame_raises_on_drawing :
  @FEREngine.detect_faces demo_far demo_store 0%nat
    = Ok [(0, 0, 2, 2)%Z; (2147483648, 0, 2, 2)%Z]
  /\ @classified demo_far (FEREngine.face_roi black_frame (0, 0, 2, 2)%Z)
       [("happy", 3); ("fear", 1)]%string
  /\ (@FEREngine.process_face demo_far demo_store 0%nat (0, 0, 2, 2)%Z).1 !! 0%nat
     = Some first_box_frame
  /\ @classifier_failure demo_far
       (FEREngine.face_roi first_box_frame (2147483648, 0, 2, 2)%Z)
  /\ @FEREngine.process_frame demo_far demo_store 0%nat
     = (<[0%nat := first_box_frame]> demo_store, Raise Cv2Error).
Proof.
  split; [vm_compute; reflexivity|]. split.
  { eexists _, _. split; [reflexivity|]. split; [reflexivity|].
    right. eexists. reflexivity. }
  split; [vm_compute; reflexivity|].
  split; [apply malformed_crop; vm_compute; reflexivity|].
  vm_compute. reflexivity.
Qed.

Lemma dominant_emotion_first_argmax_witness :
  exists (i : nat) (p : Q),
    [("happy", 3 # 4); ("frustration", 1 # 4)]%string !! i = Some ("happy"%string, p)
    /\ (forall (j : nat) (k : string) (q : Q),
          [("happy", 3 # 4); ("frustration", 1 # 4)]%string !! j = Some (k, q) -> q <= p)
    /\ (forall (j : nat) (k : string) (q : Q),
          (j < i)%nat ->
          [("happy", 3 # 4); ("frustration", 1 # 4)]%string !! j = Some (k, q) -> q < p)
    /\ forall now,
         LiveCameraFER.confidence
           (LiveCameraFER.entry_of
              (FEREngine.FaceResult (0, 0, 2, 2)%Z
                 [("happy", 3 # 4); ("frustration", 1 # 4)]%string "happy") now) = p.
Proof.
  refine (proj2 (@dominant_emotion_first_argmax demo demo_store _ 0%nat 0%nat demo_results
                   demo_run
                   (FEREngine.FaceResult (0, 0, 2, 2)%Z
                      [("happy", 3 # 4); ("frustration", 1 # 4)]%string "happy") _) _).
  - apply elem_of_cons. by left.
  - discriminate.
Defined.

Lemma history_fifo_capacity_witness :
  LiveCameraFER.emotion_history
    (fold_left (@LiveCameraFER.record_result demo) many_results LiveCameraFER.init)
  = drop 50 (@entries_of demo LiveCameraFER.init many_results)
  /\ length (LiveCameraFER.emotion_history
               (fold_left (@LiveCameraFER.record_result demo) many_results
                          LiveCameraFER.init))
     = 100%nat.
Proof.
  apply (proj1 (proj2 (proj2 (proj2 (proj2 (proj2 (proj2 (@history_fifo_capacity demo)))))))).
  reflexivity.
Defined.

Lemma statistics_of_snapshot_witness :
  LiveCameraFER.get_emotion_statistics ten_entries = [("happy", 0.6); ("sad", 0.4)]%string.
Proof.
  apply (proj2 (proj2 (proj2 statistics_of_snapshot))). reflexivity.
Defined.

Lemma statistics_implementations_agree_witness :
  dict_same
    (FEREngine.get_emotion_statistics
       [FEREngine.FaceResult (0, 0, 2, 2)%Z [] "sad"; FEREngine.FaceResult (2, 2, 1, 1)%Z [] "happy"])
    (LiveCameraFER.get_emotion_statistics
       (LiveCameraFER.AppState
          [LiveCameraFER.HistoryEntry "happy" 0 0; LiveCameraFER.HistoryEntry "sad" 0 1] 2)).
Proof.
  apply (proj1 (statistics_implementations_agree _ _)). simpl. apply perm_swap.
Defined.

(** * Further properties of the engine *)

(** ** The keys of the dictionaries the code builds *)

Lemma dict_keys_set {V} (k : string) (v : V) (d : pydict V) :
  dict_keys (dict_set k v d)
  = if decide (k ∈ dict_keys d) then dict_keys d else dict_keys d ++ [k].
Proof.
  unfold dict_keys. induction d as [|[k' v'] d IH]; csimpl.
  - done.
  - destruct (decide (k' = k)) as [->|Hne]; csimpl.
    + rewrite decide_True by (apply elem_of_cons; by left). done.
    + rewrite IH. destruct (decide (k ∈ d.*1)) as [Hin|Hnin].
      * rewrite decide_True by (apply elem_of_cons; by right). done.
      * rewrite decide_False; [done|].
        rewrite elem_of_cons. intros [->|?]; done.
Qed.

Lemma dict_get_elem {V} (k : string) (v : V) (d : pydict V) :
  NoDup (dict_keys d) -> (k, v) ∈ d -> dict_get k d = Some v.
Proof.
  unfold dict_keys. induction d as [|[k' v'] d IH]; csimpl; intros Hnd Hin.
  - by apply elem_of_nil in Hin.
  - apply NoDup_cons in Hnd as [Hk' Hnd]. apply elem_of_cons in Hin as [Heq|Hin].
    + simplify_eq. by rewrite decide_True.
    + rewrite decide_False; [by apply IH|].
      intros ->. apply Hk'. apply list_elem_of_fmap. by exists (k, v).
Qed.

Lemma first_seen_elem (x : string) (l : list string) : x ∈ first_seen l <-> x ∈ l.
Proof.
  induction l as [|y l IH]; simpl; [done|].
  rewrite !elem_of_cons, list_elem_of_filter, IH.
  destruct (decide (x = y)); intuition congruence.
Qed.

Lemma first_seen_NoDup (l : list string) : NoDup (first_seen l).
Proof.
  induction l as [|y l IH]; simpl; [constructor|].
  apply NoDup_cons. split.
  - rewrite list_elem_of_filter. intros [Hne _]. by apply Hne.
  - by apply NoDup_filter.
Qed.

(** A loop that writes one key per item builds its keys in the order in
    which the keys are first met. *)
Lemma dict_keys_accumulate {A V} (step : pydict V -> A -> pydict V) (key : A -> string)
    (xs : list A) (d : pydict V) :
  (forall d a, dict_keys (step d a)
               = if decide (key a ∈ dict_keys d) then dict_keys d
                 else dict_keys d ++ [key a]) ->
  dict_keys (fold_left step xs d)
  = dict_keys d ++ filter (fun k => k ∉ dict_keys d) (first_seen (key <$> xs)).
Proof.
  intros Hstep. revert d. induction xs as [|a xs IH]; intros d; csimpl.
  - by rewrite app_nil_r.
  - rewrite IH, Hstep. destruct (decide (key a ∈ dict_keys d)) as [Hin|Hnin].
    + rewrite filter_cons_False by (intros Hn; by apply Hn).
      rewrite list_filter_filter_l; [done|]. intros k Hk ->. done.
    + rewrite filter_cons_True by done. rewrite <- app_assoc. simpl. do 2 f_equal.
      rewrite list_filter_filter. apply list_filter_iff. intros k.
      rewrite elem_of_app, list_elem_of_singleton. tauto.
Qed.

Lemma filter_all {A} (P : A -> Prop) `{forall x, Decision (P x)} (l : list A) :
  Forall P l -> filter P l = l.
Proof.
  induction 1 as [|x l Hx _ IH]; [done|]. by rewrite filter_cons_True, IH.
Qed.

Lemma dict_keys_scale (t : Q) (d : dist) :
  dict_keys (map (fun kv => (kv.1, kv.2 / t)) d) = dict_keys d.
Proof.
  unfold dict_keys. induction d as [|kv d IH]; [done|]. csimpl. by rewrite <- IH.
Qed.

Lemma merge_label_keys (acc : dist) (item : string * Q) :
  dict_keys (merge_label acc item)
  = if decide (map_label item.1 ∈ dict_keys acc) then dict_keys acc
    else dict_keys acc ++ [map_label item.1].
Proof.
  unfold merge_label.
  destruct (dict_get (map_label item.1) acc); apply dict_keys_set.
Qed.

Lemma merge_labels_keys (raw : dist) :
  dict_keys (merge_labels raw) = first_seen (mapped_keys raw).
Proof.
  unfold merge_labels.
  rewrite (dict_keys_accumulate merge_label (fun item => map_label item.1))
    by apply merge_label_keys.
  simpl. unfold mapped_keys, dict_keys. rewrite <- list_fmap_compose.
  apply filter_all, Forall_forall. intros k _. apply not_elem_of_nil.
Qed.

Lemma remap_distribution_same_keys (raw : dist) :
  dict_keys (remap_distribution raw) = dict_keys (merge_labels raw).
Proof.
  unfold remap_distribution.
  destruct (Qltb 0 (pysum (dict_values (merge_labels raw)))); [apply dict_keys_scale | done].
Qed.

(** X1: the mapped distribution has no repeated label, and its labels are
    in the order in which the raw labels first reach them. *)
Theorem remap_distribution_keys (raw : dist) :
  dict_keys (remap_distribution raw) = first_seen (mapped_keys raw)
  /\ NoDup (dict_keys (remap_distribution raw)).
Proof.
  rewrite remap_distribution_same_keys, merge_labels_keys.
  split; [done | apply first_seen_NoDup].
Qed.

Lemma pysum_nonneg (xs : list Q) : Forall (fun x => 0 <= x) xs -> 0 <= pysum xs.
Proof.
  induction 1 as [|x xs Hx _ IH].
  - unfold pysum. simpl. apply Qle_refl.
  - rewrite pysum_cons. lra.
Qed.

Lemma mass_bounds (c : string) (raw : dist) :
  Forall (fun kv => 0 <= kv.2) raw ->
  0 <= mass c raw /\ mass c raw <= pysum (dict_values raw).
Proof.
  induction 1 as [|item raw Hitem _ IH].
  - unfold mass, dict_values, pysum. simpl. split; apply Qle_refl.
  - rewrite mass_cons.
    change (dict_values (item :: raw)) with (item.2 :: dict_values raw).
    rewrite pysum_cons. destruct IH. case_decide; split; lra.
Qed.

(** X2: when no raw probability is negative and the total mass is positive,
    every probability of the mapped distribution lies between 0 and 1. *)
Theorem remap_distribution_probabilities (raw : dist) :
  Forall (fun kv => 0 <= kv.2) raw ->
  0 < pysum (dict_values raw) ->
  Forall (fun kv => 0 <= kv.2 /\ kv.2 <= 1) (remap_distribution raw).
Proof.
  intros Hnonneg Hpos. apply Forall_forall. intros [k v] Hin.
  assert (Hget : dict_get k (remap_distribution raw) = Some v).
  { apply dict_get_elem; [|done].
    rewrite remap_distribution_same_keys, merge_labels_keys. apply first_seen_NoDup. }
  rewrite (remap_distribution_pos raw Hpos), dict_get_scale in Hget.
  pose proof (merge_labels_get k raw) as Hm.
  destruct (dict_get k (merge_labels raw)) as [v0|]; [|done].
  destruct Hm as [Hv0 _]. simpl in Hget. injection Hget as <-.
  destruct (mass_bounds k raw Hnonneg) as [Hlo Hhi].
  pose proof (merge_labels_sum raw) as Hsum. simpl.
  rewrite Hv0, Hsum. split.
  - apply Qle_shift_div_l; [done | lra].
  - apply Qle_shift_div_r; [done | lra].
Qed.

Lemma remap_distribution_probabilities_witness :
  Forall (fun kv : string * Q => 0 <= kv.2 /\ kv.2 <= 1)
         (remap_distribution [("angry", 1); ("fear", 3)]%string).
Proof.
  apply remap_distribution_probabilities.
  - repeat constructor; simpl; lra.
  - reflexivity.
Defined.

(** ** Labels of the results *)

Lemma map_label_canonical (l : string) :
  l ∈ emotion_labels -> map_label l ∈ canonical_labels.
Proof.
  unfold emotion_labels. intros Hl.
  repeat (apply elem_of_cons in Hl as [->|Hl]; [vm_compute; set_solver|]).
  by apply elem_of_nil in Hl.
Qed.

Lemma max_from_elem {A} (key : A -> Q) (best : A) (items : list A) :
  max_from key best items ∈ best :: items.
Proof.
  destruct (max_from_first_max key items best) as (i & Hi & _).
  by eapply list_elem_of_lookup_2.
Qed.

Lemma dominant_label (emotions : dist) :
  FEREngine.dominant emotions = "neutral"%string
  \/ FEREngine.dominant emotions ∈ dict_keys emotions.
Proof.
  destruct emotions as [|item items]; [by left|]. right.
  unfold FEREngine.dominant, dict_keys.
  apply (list_elem_of_fmap_2 fst), max_from_elem.
Qed.

(** X3: when the raw labels are labels of the detector's vocabulary, the
    labels of the mapped distribution and the dominant emotion read from it
    are labels of the canonical taxonomy. *)
Theorem remap_distribution_canonical (raw : dist) :
  Forall (fun k => k ∈ emotion_labels) (dict_keys raw) ->
  Forall (fun k => k ∈ canonical_labels) (dict_keys (remap_distribution raw))
  /\ FEREngine.dominant (remap_distribution raw) ∈ canonical_labels.
Proof.
  intros Hraw.
  assert (Hkeys : Forall (fun k => k ∈ canonical_labels) (dict_keys (remap_distribution raw))).
  { rewrite remap_distribution_same_keys, merge_labels_keys.
    apply Forall_forall. intros k Hk. rewrite first_seen_elem in Hk.
    unfold mapped_keys in Hk. apply list_elem_of_fmap in Hk as (l & -> & Hl).
    rewrite Forall_forall in Hraw. by apply map_label_canonical, Hraw. }
  split; [done|].
  destruct (dominant_label (remap_distribution raw)) as [-> | Hin].
  - unfold canonical_labels. set_solver.
  - rewrite Forall_forall in Hkeys. by apply Hkeys.
Qed.

Lemma remap_distribution_canonical_witness :
  FEREngine.dominant (remap_distribution [("angry", 1); ("fear", 3)]%string) ∈ canonical_labels.
Proof.
  apply (remap_distribution_canonical [("angry", 1); ("fear", 3)]%string).
  unfold emotion_labels. repeat constructor; set_solver.
Defined.

(** ** Outcomes of a frame *)

Section Outcomes.
Context `{Collaborators}.
Import FEREngine.


Lemma record_results_time_calls (results : list face_result) (app : LiveCameraFER.app_state) :
  LiveCameraFER.time_calls (fold_left LiveCameraFER.record_result results app)
  = (LiveCameraFER.time_calls app + length results)%nat.
Proof.
  revert app. induction results as [|r results IH]; intros app; simpl; [lia|].
  rewrite IH. simpl. lia.
Qed.

(** X5: [LiveCameraFER.process_frame] absorbs the exceptions of the
    engine.  When detection raises it returns the frame it was given with
    no results, and the store, the history and the clock are as before.
    When a drawing call raises it returns the frame it was given with no
    results, the history and the clock are as before, and what was drawn
    before the call stays in the frame.  Otherwise it returns the engine's
    frame and results and reads the clock once per result. *)
Theorem live_process_frame_outcome (σ : store) (app : LiveCameraFER.app_state) (frame : loc) :
  match detect_faces σ frame with
  | Raise e => LiveCameraFER.process_frame σ app frame = (σ, app, (frame, []))
  | Ok face_boxes =>
      exists σ' app' results,
        LiveCameraFER.process_frame σ app frame = (σ', app', (frame, results))
        /\ drawn_on frame σ σ'
        /\ ((process_frame σ frame = (σ', Ok (frame, results))
             /\ bbox <$> results = face_boxes
             /\ LiveCameraFER.time_calls app'
                = (LiveCameraFER.time_calls app + length face_boxes)%nat)
            \/ (process_frame σ frame = (σ', Raise Cv2Error)
                /\ results = [] /\ app' = app))
  end.
Proof.
  unfold LiveCameraFER.process_frame.
  destruct (process_frame_spec σ frame)
    as [(e & -> & ->)
       | (face_boxes & σ' & f & -> & Hσ & _ & Hdrawn & _ &
          [(results & -> & Hboxes & _)
          | (drawn & r & rest & -> & _)])].
  - done.
  - eexists _, _, _. split; [reflexivity|]. split; [done|]. left.
    split; [done|]. split; [done|].
    rewrite record_results_time_calls, <- Hboxes, length_fmap. done.
  - eexists _, _, _. split; [reflexivity|]. split; [done|]. by right.
Qed.

(** X6: after a frame, the history is the last 100 of its earlier entries
    followed by one entry per result, in the order of the results, each
    holding the dominant emotion, its confidence and the clock's reading. *)
Theorem live_process_frame_history (σ : store) (app : LiveCameraFER.app_state) (frame : loc) :
  (length (LiveCameraFER.emotion_history app) <= 100)%nat ->
  let results := (LiveCameraFER.process_frame σ app frame).2.2 in
  let all := LiveCameraFER.emotion_history app ++ entries_of app results in
  LiveCameraFER.emotion_history (LiveCameraFER.process_frame σ app frame).1.2
  = drop (length all - 100) all.
Proof.
  intros Hlen. unfold LiveCameraFER.process_frame.
  destruct (process_frame σ frame) as [σ' [[annotated results]|e]]; simpl.
  - rewrite record_results_history. by apply deque_append_fold.
  - rewrite app_nil_r. replace (length (LiveCameraFER.emotion_history app) - 100)%nat
      with 0%nat by lia. done.
Qed.

End Outcomes.

Lemma live_process_frame_history_witness :
  LiveCameraFER.emotion_history
    (@LiveCameraFER.process_frame demo demo_store LiveCameraFER.init 0%nat).1.2
  = [LiveCameraFER.HistoryEntry "happy" (3 # 4) 0; LiveCameraFER.HistoryEntry "neutral" 0 1].
Proof.
  rewrite (@live_process_frame_history demo demo_store LiveCameraFER.init 0%nat)
    by (simpl; lia).
  vm_compute. reflexivity.
Defined.

(** ** Crops *)

Lemma map_fmap {A B} (g : A -> B) (l : list A) : map g l = g <$> l.
Proof. induction l as [|x l IH]; [done|]. csimpl. by rewrite IH. Qed.

Lemma pyslice_inside {A} (a b : Z) (xs : list A) :
  (0 <= a)%Z -> (a <= b)%Z -> (b <= Z.of_nat (length xs))%Z ->
  pyslice a b xs = take (Z.to_nat (b - a)) (drop (Z.to_nat a) xs).
Proof.
  intros Ha Hab Hb. unfold pyslice, slice_bound.
  destruct (a <? 0)%Z eqn:Hneg; [apply Z.ltb_lt in Hneg; lia|].
  destruct (b <? 0)%Z eqn:Hnegb; [apply Z.ltb_lt in Hnegb; lia|].
  f_equal; [lia | f_equal; lia].
Qed.

(** A slice that starts before the sequence and ends inside it is empty: the
    negative start counts from the end. *)
Lemma pyslice_wraps {A} (a b : Z) (xs : list A) :
  (a < 0)%Z -> (0 <= b)%Z ->
  (- Z.of_nat (length xs) <= a)%Z -> (b - a <= Z.of_nat (length xs))%Z ->
  pyslice a b xs = [].
Proof.
  intros Ha Hb Hlo Hwidth. unfold pyslice, slice_bound.
  destruct (a <? 0)%Z eqn:Hneg; [|apply Z.ltb_ge in Hneg; lia].
  destruct (b <? 0)%Z eqn:Hnegb; [apply Z.ltb_lt in Hnegb; lia|].
  match goal with |- take ?n _ = _ => replace n with 0%nat by lia end. done.
Qed.

Lemma pyslice_Forall {A} (P : A -> Prop) (a b : Z) (xs : list A) :
  Forall P xs -> Forall P (pyslice a b xs).
Proof. intros HP. unfold pyslice. by apply Forall_take, Forall_drop. Qed.

Lemma is_empty_image_rows (g : ndarray) :
  Forall (fun row => row = []) g -> is_empty_image g = true.
Proof.
  intros Hg. unfold is_empty_image, shape.
  destruct Hg as [|row g Hrow _]; [done|]. subst row. by simpl.
Qed.

Section Crops.
Context `{Collaborators}.
Import FEREngine.

Lemma face_roi_cut_empty (f : ndarray) (x y w h : Z) :
  rectangular f ->
  (x < 0 /\ 0 <= x + w /\ w <= (shape f).2 /\ - (shape f).2 <= x
   \/ y < 0 /\ 0 <= y + h /\ h <= (shape f).1 /\ - (shape f).1 <= y)%Z ->
  is_empty_image (face_roi f (x, y, w, h)) = true.
Proof.
  intros Hrect Hcut. apply is_empty_image_rows. unfold face_roi, crop.
  destruct Hcut as [(Hx & Hxw & Hw & Hlo) | (Hy & Hyh & Hh & Hlo)].
  - apply Forall_fmap. apply pyslice_Forall.
    eapply Forall_impl; [exact Hrect|]. intros row Hrow. cbv beta in Hrow.
    apply pyslice_wraps; lia.
  - simpl in Hh, Hlo. rewrite pyslice_wraps by lia. constructor.
Qed.

(** X7: a box that starts left of the frame by at most the frame's width
    ([-W <= x < 0]), does not end left of the frame ([0 <= x + w]) and is
    no wider than the frame ([w <= W]), or the same upwards with the
    heights, is cropped to nothing, because the negative start of the
    slice counts from the far edge: whatever the classifier, the face gets
    no emotions, and it is reported neutral unless its drawing raises. *)
Theorem face_cut_by_edge_is_neutral (σ : store) (frame : loc) (f : ndarray)
    (x y w h : Z) :
  σ !! frame = Some f ->
  rectangular f ->
  (x < 0 /\ 0 <= x + w /\ w <= (shape f).2 /\ - (shape f).2 <= x
   \/ y < 0 /\ 0 <= y + h /\ h <= (shape f).1 /\ - (shape f).1 <= y)%Z ->
  is_empty_image (face_roi f (x, y, w, h)) = true
  /\ analyze_emotion (face_roi f (x, y, w, h)) = Ok []
  /\ (process_face σ frame (x, y, w, h)).2
     = if drawable (x, y, w, h) 0
       then Ok (FaceResult (x, y, w, h) [] "neutral") else Raise Cv2Error.
Proof.
  intros Hσ Hrect Hcut.
  pose proof (face_roi_cut_empty f x y w h Hrect Hcut) as Hempty.
  assert (Han : analyze_emotion (face_roi f (x, y, w, h)) = Ok [])
    by (by apply analyze_emotion_failure, malformed_crop).
  split; [done|]. split; [done|].
  destruct (process_face_spec σ frame f (x, y, w, h) Hσ) as (emotions & Hem & ->).
  rewrite Han in Hem. by injection Hem as <-.
Qed.

End Crops.

Lemma black_frame_rectangular : rectangular black_frame.
Proof. unfold rectangular. repeat constructor. Qed.

Lemma face_cut_by_edge_is_neutral_witness :
  is_empty_image (FEREngine.face_roi black_frame (-1, 1, 2, 2)%Z) = true
  /\ @FEREngine.analyze_emotion demo_edge (FEREngine.face_roi black_frame (-1, 1, 2, 2)%Z)
     = Ok []
  /\ (@FEREngine.process_face demo_edge demo_store 0%nat (-1, 1, 2, 2)%Z).2
     = if drawable (-1, 1, 2, 2)%Z 0
       then Ok (FEREngine.FaceResult (-1, 1, 2, 2)%Z [] "neutral") else Raise Cv2Error.
Proof.
  apply (@face_cut_by_edge_is_neutral demo_edge demo_store 0%nat black_frame).
  - reflexivity.
  - apply black_frame_rectangular.
  - left. simpl. lia.
Defined.

(** X8: a box of positive size that lies inside a rectangular frame is
    cropped to exactly its size, and the crop holds the frame's pixels from
    the box's corner on. *)
Theorem face_roi_inside (f : ndarray) (x y w h : Z) :
  rectangular f ->
  (0 <= x)%Z -> (0 <= y)%Z -> (0 < w)%Z -> (0 < h)%Z ->
  (x + w <= (shape f).2)%Z -> (y + h <= (shape f).1)%Z ->
  shape (FEREngine.face_roi f (x, y, w, h)) = (h, w)
  /\ forall c r : nat,
       (Z.of_nat c < w)%Z -> (Z.of_nat r < h)%Z ->
       pixel_at (FEREngine.face_roi f (x, y, w, h)) c r
       = pixel_at f (Z.to_nat x + c) (Z.to_nat y + r).
Proof.
  intros Hrect Hx Hy Hw Hh Hxw Hyh. unfold FEREngine.face_roi, crop.
  simpl in Hyh. rewrite pyslice_inside by lia.
  replace (y + h - y)%Z with h by lia.
  assert (Hrow : forall row, row ∈ f ->
            pyslice x (x + w) row = take (Z.to_nat w) (drop (Z.to_nat x) row)).
  { intros row Hin. unfold rectangular in Hrect. rewrite Forall_forall in Hrect.
    specialize (Hrect row Hin). rewrite pyslice_inside by lia.
    by replace (x + w - x)%Z with w by lia. }
  split.
  - unfold shape. rewrite length_fmap, length_take, length_drop.
    destruct (drop (Z.to_nat y) f) as [|row rows] eqn:Hdrop.
    { apply (f_equal length) in Hdrop. rewrite length_drop in Hdrop. simpl in Hdrop. lia. }
    assert (Hin : row ∈ f).
    { apply (list_elem_of_lookup_2 _ (Z.to_nat y + 0)).
      by rewrite <- lookup_drop, Hdrop. }
    replace (Z.to_nat h) with (S (Z.to_nat h - 1)) at 2 by lia. csimpl.
    rewrite (Hrow row Hin), length_take, length_drop.
    unfold rectangular in Hrect. rewrite Forall_forall in Hrect.
    specialize (Hrect row Hin). apply (f_equal length) in Hdrop.
    rewrite length_drop in Hdrop. simpl in Hdrop. f_equal; lia.
  - intros c r Hc Hr. unfold pixel_at, ndarray in *.
    rewrite map_fmap, list_lookup_fmap, lookup_take_lt by lia. rewrite lookup_drop.
    destruct (f !! (Z.to_nat y + r)%nat) as [row|] eqn:Hlook; simpl; [|done].
    rewrite (Hrow row) by (by eapply list_elem_of_lookup_2).
    rewrite lookup_take_lt by lia. by rewrite lookup_drop.
Qed.

Lemma face_roi_inside_witness :
  shape (FEREngine.face_roi black_frame (0, 0, 2, 2)%Z) = (2, 2)%Z.
Proof.
  apply (face_roi_inside black_frame 0 0 2 2 black_frame_rectangular); simpl; lia.
Defined.

(** ** Statistics as a distribution *)

Lemma zsum_dict_set (k : string) (v : Z) (d : pydict Z) :
  zsum (dict_values (dict_set k v d))
  = (zsum (dict_values d) - default 0 (dict_get k d) + v)%Z.
Proof.
  unfold dict_values, zsum. induction d as [|[k' v'] d IH]; csimpl; [lia|].
  destruct (decide (k' = k)); csimpl; [lia | rewrite IH; lia].
Qed.

Lemma tally_sum (labels : list string) (counts : pydict Z) :
  zsum (dict_values (fold_left count_one labels counts))
  = (zsum (dict_values counts) + Z.of_nat (length labels))%Z.
Proof.
  revert counts. induction labels as [|k labels IH]; intros counts; simpl; [lia|].
  rewrite IH. unfold count_one. rewrite zsum_dict_set. lia.
Qed.

Lemma tally_keys (labels : list string) :
  dict_keys (fold_left count_one labels []) = first_seen labels.
Proof.
  rewrite (dict_keys_accumulate count_one id)
    by (intros d k; unfold count_one; apply dict_keys_set).
  simpl. rewrite list_fmap_id.
  apply filter_all, Forall_forall. intros k _. apply not_elem_of_nil.
Qed.

Lemma fractions_keys (total : Z) (counts : pydict Z) :
  dict_keys (fractions total counts) = dict_keys counts.
Proof.
  unfold fractions, dict_keys. induction counts as [|kc d IH]; [done|].
  csimpl. by rewrite <- IH.
Qed.

Lemma fractions_sum (total : Z) (counts : pydict Z) :
  pysum (dict_values (fractions total counts))
  == inject_Z (zsum (dict_values counts)) / inject_Z total.
Proof.
  unfold fractions, dict_values, zsum. induction counts as [|kc d IH]; csimpl.
  - unfold pysum, Qdiv. simpl. ring.
  - rewrite pysum_cons, IH, inject_Z_plus. unfold Qdiv. ring.
Qed.

Lemma occurrences_le_length (e : string) (labels : list string) :
  (occurrences e labels <= Z.of_nat (length labels))%Z.
Proof. unfold occurrences. pose proof (length_filter (fun l => l = e) labels). lia. Qed.

(** X9: on a non-empty history the statistics are a distribution over the
    labels that occur: the fractions add up to 1, each is greater than 0 and
    at most 1, and the labels come without repetition in the order in which
    the history first shows them. *)
Theorem statistics_are_a_distribution (app : LiveCameraFER.app_state) :
  LiveCameraFER.emotion_history app <> [] ->
  pysum (dict_values (LiveCameraFER.get_emotion_statistics app)) == 1
  /\ Forall (fun kv => 0 < kv.2 /\ kv.2 <= 1) (LiveCameraFER.get_emotion_statistics app)
  /\ dict_keys (LiveCameraFER.get_emotion_statistics app)
     = first_seen (LiveCameraFER.emotion <$> LiveCameraFER.emotion_history app).
Proof.
  intros Hne.
  set (labels := LiveCameraFER.emotion <$> LiveCameraFER.emotion_history app).
  assert (Hlabels : labels <> []).
  { unfold labels. by destruct (LiveCameraFER.emotion_history app). }
  assert (Hstats : LiveCameraFER.get_emotion_statistics app
                   = fractions (Z.of_nat (length labels)) (fold_left count_one labels [])).
  { rewrite live_statistics_labels. fold labels. by destruct labels. }
  assert (Hn : 0 < inject_Z (Z.of_nat (length labels))).
  { change 0 with (inject_Z 0). rewrite <- Zlt_Qlt. destruct labels; [done | simpl; lia]. }
  assert (Hkeys : dict_keys (LiveCameraFER.get_emotion_statistics app) = first_seen labels)
    by (by rewrite Hstats, fractions_keys, tally_keys).
  split; [|split; [|done]].
  - rewrite Hstats, fractions_sum, tally_sum.
    change (zsum (dict_values (@nil (string * Z)))) with 0%Z. rewrite Z.add_0_l.
    field. intros Hz. rewrite Hz in Hn. by apply Qlt_irrefl in Hn.
  - apply Forall_forall. intros [e v] Hin.
    assert (Hget : dict_get e (LiveCameraFER.get_emotion_statistics app) = Some v).
    { apply dict_get_elem; [|done]. rewrite Hkeys. apply first_seen_NoDup. }
    rewrite live_statistics_get in Hget. fold labels in Hget. unfold fraction_of in Hget.
    case_decide as Hocc; [done|]. injection Hget as <-. simpl.
    pose proof (occurrences_nonneg e labels) as Hlo.
    pose proof (occurrences_le_length e labels) as Hhi.
    rewrite Zle_Qle in Hhi. assert (Hpos : 0 < inject_Z (occurrences e labels)).
    { change 0 with (inject_Z 0). rewrite <- Zlt_Qlt. lia. }
    split.
    + apply Qlt_shift_div_l; [done | lra].
    + apply Qle_shift_div_r; [done | lra].
Qed.

Lemma statistics_are_a_distribution_witness :
  pysum (dict_values (LiveCameraFER.get_emotion_statistics ten_entries)) == 1.
Proof.
  apply (statistics_are_a_distribution ten_entries). discriminate.
Defined.

(** * The dataset integration *)

(** ** The reverse mapping *)

Lemma dict_get_Some_elem {V} (k : string) (v : V) (d : pydict V) :
  dict_get k d = Some v -> (k, v) ∈ d.
Proof.
  induction d as [|[k' v'] d IH]; simpl; [done|].
  destruct (decide (k' = k)) as [->|Hne]; intros Hget.
  - injection Hget as ->. apply elem_of_cons. by left.
  - apply elem_of_cons. right. by apply IH.
Qed.

Lemma reverse_fold_other (v : string) (d acc : pydict string) :
  v ∉ dict_values d ->
  dict_get v (fold_left (fun acc kv => dict_set kv.2 kv.1 acc) d acc) = dict_get v acc.
Proof.
  unfold dict_values. revert acc. induction d as [|[k0 v0] d IH]; intros acc Hnin; csimpl; [done|].
  csimpl in Hnin. apply not_elem_of_cons in Hnin as [Hne Hnin].
  rewrite IH by done. by apply dict_get_set_ne.
Qed.

Lemma reverse_fold_elem (k v : string) (d acc : pydict string) :
  NoDup (dict_values d) -> (k, v) ∈ d ->
  dict_get v (fold_left (fun acc kv => dict_set kv.2 kv.1 acc) d acc) = Some k.
Proof.
  unfold dict_values. revert acc.
  induction d as [|[k0 v0] d IH]; intros acc Hnd Hin; csimpl.
  - by apply elem_of_nil in Hin.
  - csimpl in Hnd. apply NoDup_cons in Hnd as [Hv0 Hnd].
    apply elem_of_cons in Hin as [Heq|Hin].
    + injection Heq as -> ->. rewrite reverse_fold_other by done. apply dict_get_set_eq.
    + by apply IH.
Qed.

(** X10: the reversed dictionary inverts a dictionary with distinct
    values: it maps [v] to [k] exactly when the dictionary maps [k] to [v].
    The emotion mapping is such a dictionary, so [reverse_mapping] takes
    every canonical label back to the one native label that gives it. *)
Theorem reverse_dict_round_trip (d : pydict string) (k v : string) :
  NoDup (dict_keys d) -> NoDup (dict_values d) ->
  (dict_get k d = Some v <-> dict_get v (reverse_dict d) = Some k).
Proof.
  intros Hkeys Hvalues. unfold reverse_dict. split.
  - intros Hget. apply reverse_fold_elem; [done|]. by apply dict_get_Some_elem.
  - intros Hget. destruct (decide (v ∈ dict_values d)) as [Hin|Hnin].
    + unfold dict_values in Hin. apply list_elem_of_fmap in Hin as ([k' v'] & -> & Hin).
      simpl in Hget |- *. rewrite (reverse_fold_elem k' v' d []) in Hget by done.
      injection Hget as ->. by apply dict_get_elem.
    + by rewrite reverse_fold_other in Hget.
Qed.

Lemma reverse_dict_round_trip_witness :
  dict_get "fear" emotion_mapping = Some "frustration"%string
  <-> dict_get "frustration" FERDatasetIntegration.reverse_mapping = Some "fear"%string.
Proof.
  apply (reverse_dict_round_trip emotion_mapping).
  - apply (bool_decide_unpack (NoDup (dict_keys emotion_mapping))). vm_compute. exact I.
  - apply (bool_decide_unpack (NoDup (dict_values emotion_mapping))). vm_compute. exact I.
Defined.

(** ** The loader *)

Section LoaderProperties.
Context `{FileSystem}.
Import FERDatasetIntegration.

Lemma load_file_aligned (P : string -> Prop) (emotion_path mapped_emotion img_file : string)
    (lists : list sample * list string) :
  P mapped_emotion -> aligned P lists ->
  aligned P (load_file emotion_path mapped_emotion lists img_file).
Proof.
  intros HP [Hlen Hall]. unfold load_file.
  destruct (is_image_file img_file); [|done].
  destruct (load_image (os_path_join emotion_path img_file)) as [[img|]|e]; try done.
  split; simpl.
  - rewrite !length_app, Hlen. done.
  - apply Forall_app. split; [done | by constructor].
Qed.

Lemma load_files_aligned (P : string -> Prop) (emotion_path mapped_emotion : string)
    (img_files : list string) (lists : list sample * list string) :
  P mapped_emotion -> aligned P lists ->
  aligned P (fold_left (load_file emotion_path mapped_emotion) img_files lists).
Proof.
  intros HP. revert lists. induction img_files as [|img_file img_files IH]; intros lists Hal;
    simpl; [done|].
  by apply IH, load_file_aligned.
Qed.

Lemma load_emotions_aligned (P : string -> Prop) (split_dir : string)
    (emotions : list string) (lists lists' : list sample * list string) :
  (forall emotion, emotion ∈ emotions ->
     os_path_isdir (os_path_join split_dir emotion) = true -> P (map_label emotion)) ->
  aligned P lists ->
  load_emotions split_dir lists emotions = Ok lists' ->
  aligned P lists'.
Proof.
  revert lists. induction emotions as [|emotion emotions IH]; intros lists HP Hal Hrun; simpl in Hrun.
  - by injection Hrun as <-.
  - unfold load_emotion in Hrun.
    destruct (os_path_isdir (os_path_join split_dir emotion)) eqn:Hdir; simpl in Hrun.
    + destruct (os_listdir (os_path_join split_dir emotion)) as [img_files|e]; simpl in Hrun; [|done].
      eapply IH; [| |exact Hrun].
      * intros e' He'. apply HP. apply elem_of_cons. by right.
      * apply load_files_aligned; [|done]. apply HP; [apply elem_of_cons; by left | done].
    + eapply IH; [| |exact Hrun]; [|done].
      intros e' He'. apply HP. apply elem_of_cons. by right.
Qed.

Lemma load_split_aligned (data_dir split : string) (lists : list sample * list string) :
  load_split data_dir split = Ok lists ->
  aligned (label_of_listed_directory (os_path_join data_dir split)) lists.
Proof.
  unfold load_split. set (split_dir := os_path_join data_dir split).
  destruct (os_path_exists split_dir).
  - destruct (os_listdir split_dir) as [emotions|e] eqn:Hlist; simpl; [|done].
    apply load_emotions_aligned; [|by split].
    intros emotion Hin Hdir. by exists emotions, emotion.
  - intros [= <-]. by split.
Qed.

(** X11: when the loader returns, each split has as many labels as
    samples, and every label is the mapped name of a directory that the
    listing of the split names. *)
Theorem load_kaggle_fer_dataset_aligned (data_dir : string)
    (train test : list sample * list string) :
  load_kaggle_fer_dataset data_dir = Ok (train, test) ->
  (length train.1 = length train.2
   /\ Forall (label_of_listed_directory (os_path_join data_dir "train")) train.2)
  /\ (length test.1 = length test.2
      /\ Forall (label_of_listed_directory (os_path_join data_dir "test")) test.2).
Proof.
  unfold load_kaggle_fer_dataset.
  destruct (load_split data_dir "train") as [train'|e] eqn:Htrain; simpl; [|done].
  destruct (load_split data_dir "test") as [test'|e] eqn:Htest; simpl; [|done].
  intros [= <- <-]. split; by apply load_split_aligned.
Qed.

Lemma load_emotions_returns (split_dir : string) (emotions : list string)
    (lists : list sample * list string) :
  (exists lists', load_emotions split_dir lists emotions = Ok lists')
  <-> forallb (entry_listable split_dir) emotions = true.
Proof.
  revert lists. induction emotions as [|emotion emotions IH]; intros lists; simpl.
  - split; [done | by exists lists].
  - unfold load_emotion, entry_listable.
    destruct (os_path_isdir (os_path_join split_dir emotion)); simpl; [|apply IH].
    destruct (os_listdir (os_path_join split_dir emotion)) as [names|e]; simpl; [apply IH|].
    split; [by intros [? ?] | done].
Qed.

Lemma load_split_returns (data_dir split : string) :
  (exists lists, load_split data_dir split = Ok lists) <-> listable data_dir split = true.
Proof.
  unfold load_split, listable.
  destruct (os_path_exists (os_path_join data_dir split)); [|split; [done | by eexists]].
  destruct (os_listdir (os_path_join data_dir split)) as [names|e]; simpl.
  - apply load_emotions_returns.
  - split; [by intros [? ?] | done].
Qed.

(** X12: no image can make the loader fail.  It returns exactly when
    every listing of a directory that it makes succeeds, whatever reading,
    resizing and converting the images do; it raises the exception of the
    listing when the listing of an existing train directory raises; and
    when neither split exists it returns four empty lists. *)
Theorem load_kaggle_fer_dataset_failures (data_dir : string) :
  ((exists r, load_kaggle_fer_dataset data_dir = Ok r)
   <-> listable data_dir "train" = true /\ listable data_dir "test" = true)
  /\ (forall e,
        os_path_exists (os_path_join data_dir "train") = true ->
        os_listdir (os_path_join data_dir "train") = Raise e ->
        load_kaggle_fer_dataset data_dir = Raise e)
  /\ (os_path_exists (os_path_join data_dir "train") = false ->
      os_path_exists (os_path_join data_dir "test") = false ->
      load_kaggle_fer_dataset data_dir = Ok (([], []), ([], []))).
Proof.
  split; [|split].
  - rewrite <- !load_split_returns. unfold load_kaggle_fer_dataset. split.
    + intros [r Hr].
      destruct (load_split data_dir "train") as [train|e]; simpl in Hr; [|done].
      destruct (load_split data_dir "test") as [test|e]; simpl in Hr; [|done].
      split; by eexists.
    + intros [[train ->] [test ->]]. by eexists.
  - intros e Hex Hraise. unfold load_kaggle_fer_dataset, load_split.
    by rewrite Hex, Hraise.
  - intros Htrain Htest. unfold load_kaggle_fer_dataset, load_split.
    by rewrite Htrain, Htest.
Qed.

End LoaderProperties.

Example demo_fs_load :
  @FERDatasetIntegration.load_kaggle_fer_dataset demo_fs "data"
  = Ok (([[[255 # 255]]; [[255 # 255]]], ["frustration"; "happy"]%string), ([], [])).
Proof. vm_compute. reflexivity. Qed.

Lemma load_kaggle_fer_dataset_aligned_witness :
  (length [[[255 # 255]]; [[255 # 255]]] = length ["frustration"; "happy"]%string
   /\ Forall (@label_of_listed_directory demo_fs (os_path_join "data" "train"))
             ["frustration"; "happy"]%string)
  /\ (length (@nil FERDatasetIntegration.sample) = length (@nil string)
      /\ Forall (@label_of_listed_directory demo_fs (os_path_join "data" "test")) []).
Proof.
  exact (@load_kaggle_fer_dataset_aligned demo_fs "data"
           ([[[255 # 255]]; [[255 # 255]]], ["frustration"; "happy"]%string) ([], []) demo_fs_load).
Defined.

(** Of the three image files of the failing file system only the one
    that is read and converted without an exception is loaded. *)
Example demo_fs_failing_load :
  @FERDatasetIntegration.load_kaggle_fer_dataset demo_fs_failing "data"
  = Ok (([[[255 # 255]]], ["happy"]%string), ([], [])).
Proof. vm_compute. reflexivity. Qed.

Lemma load_kaggle_fer_dataset_failures_witness :
  exists r, @FERDatasetIntegration.load_kaggle_fer_dataset demo_fs_failing "data" = Ok r.
Proof.
  apply (proj1 (@load_kaggle_fer_dataset_failures demo_fs_failing "data")).
  split; reflexivity.
Defined.

(** * The camera loop *)

Lemma repainted_shape (f f' : ndarray) : repainted f f' -> shape f' = shape f.
Proof.
  unfold repainted, shape. intros Hrep.
  destruct Hrep as [|row row' f f' Hrow Hrest]; [done|]. simpl.
  rewrite (Forall2_length _ _ _ Hrow), (Forall2_length _ _ _ Hrest). done.
Qed.

Lemma repainted_is_empty_image (f f' : ndarray) :
  repainted f f' -> is_empty_image f' = is_empty_image f.
Proof. intros Hrep. unfold is_empty_image. by rewrite (repainted_shape f f' Hrep). Qed.

Section LoopProperties.
Context `{Collaborators}.
Import LiveCameraSession.

(** A frame of the application: the frame returned is the one given, only
    its array is drawn on, and the bound of the history is kept. *)
Lemma live_process_frame_spec (σ : store) (a : LiveCameraFER.app_state) (frame : loc)
    (f : ndarray) :
  σ !! frame = Some f ->
  exists σ' a' results f',
    LiveCameraFER.process_frame σ a frame = (σ', a', (frame, results))
    /\ drawn_on frame σ σ'
    /\ σ' !! frame = Some f' /\ repainted f f'
    /\ ((length (LiveCameraFER.emotion_history a) <= 100)%nat ->
        (length (LiveCameraFER.emotion_history a') <= 100)%nat).
Proof.
  intros Hσ.
  pose proof (process_frame_history σ a frame) as [rs Hhist].
  unfold LiveCameraFER.process_frame in *.
  destruct (process_frame_spec σ frame)
    as [(e & _ & Hrun)
       | (bs & σ' & f0 & _ & _ & _ & Hdrawn & _ &
          [(results & Hrun & _) | (drawn & r & rest & Hrun & _)])];
    rewrite Hrun in Hhist |- *; simpl in Hhist.
  - exists σ, a, [], f. split; [done|]. split; [apply drawn_on_refl|].
    split; [done|]. split; [apply repainted_refl | done].
  - destruct (drawn_on_lookup _ _ _ _ Hdrawn Hσ) as (f' & Hσ' & Hrep).
    eexists σ', _, results, f'. split; [reflexivity|]. split; [done|].
    split; [done|]. split; [done|]. intros Hlen. simpl. rewrite Hhist.
    by apply deque_append_fold_length.
  - destruct (drawn_on_lookup _ _ _ _ Hdrawn Hσ) as (f' & Hσ' & Hrep).
    by exists σ', a, [], f'.
Qed.

(** The loop on an open camera that delivers frames: every frame is
    processed and counted, the capture stays as it is, and the arrays that
    were in the store stay as they were. *)
Lemma camera_loop_frames (frames : list ndarray) (σ : store) (s : session) (c : capture) :
  is_running s = true -> cap s = Some c -> is_opened c = true ->
  Forall (fun f => is_empty_image f = false) frames ->
  exists σ' s',
    (forall rest, camera_loop σ s ((Some <$> frames) ++ rest) = camera_loop σ' s' rest)
    /\ frame_count s' = (frame_count s + Z.of_nat (length frames))%Z
    /\ cap s' = cap s /\ is_running s' = true
    /\ (forall l, is_Some (σ !! l) -> σ' !! l = σ !! l)
    /\ ((length (LiveCameraFER.emotion_history (app s)) <= 100)%nat ->
        (length (LiveCameraFER.emotion_history (app s')) <= 100)%nat).
Proof.
  intros Hrun Hcap Hopen Hframes. revert σ s Hrun Hcap.
  induction Hframes as [|f frames Hf _ IH]; intros σ s Hrun Hcap.
  - exists σ, s. simpl. split; [done|]. split; [lia|]. by repeat split.
  - set (frame := fresh (dom σ)).
    assert (Hfresh : σ !! frame = None) by (apply not_elem_of_dom, is_fresh).
    destruct (live_process_frame_spec (<[frame := f]> σ) (app s) frame f)
      as (σ1 & a1 & results & f1 & Hlive & Hdrawn & Hσ1 & Hrep & Hbound);
      [apply lookup_insert_eq|].
    set (s1 := Session (cap s) (is_running s) (frame_count s + 1)%Z
                       (Some (map (map swap_channels) f1)) (Some results) a1).
    destruct (IH σ1 s1) as (σ' & s' & Hloop & Hcount & Hcap' & Hrun' & Hstore & Hhist);
      [done | done |].
    exists σ', s'. split.
    { intros rest. rewrite <- Hloop. csimpl. rewrite Hrun, Hcap, Hopen. simpl.
      fold frame. rewrite Hlive. unfold read. rewrite Hσ1. simpl.
      unfold cvtColor_BGR2RGB.
      rewrite (repainted_is_empty_image f f1 Hrep), Hf.
      unfold s1. by rewrite Hcap, Hrun. }
    simpl in *. split; [lia|]. split; [done|]. split; [done|]. split.
    + intros l Hl.
      assert (l <> frame) by (intros ->; rewrite Hfresh in Hl; by destruct Hl).
      destruct Hdrawn as [Hother _].
      rewrite Hstore by (rewrite Hother by done; by rewrite lookup_insert_ne).
      rewrite Hother by done. by apply lookup_insert_ne.
    + intros Hlen. by apply Hhist, Hbound.
Qed.

End LoopProperties.

Section SessionProperties.
Context `{Collaborators}.
Import LiveCameraSession.

Lemma camera_loop_closed (σ : store) (s : session) (reads : list (option ndarray)) :
  cap s = None \/ (exists c, cap s = Some c /\ is_opened c = false) ->
  camera_loop σ s reads = (σ, s, LoopLeft).
Proof.
  intros Hclosed. destruct reads as [|r reads]; simpl;
    destruct (is_running s); simpl; try done;
    destruct Hclosed as [-> | (c & -> & ->)]; done.
Qed.

(** X13: without an open camera [run_camera_loop] processes nothing and
    leaves at once, whatever the camera would deliver, and [is_running]
    stays set.  This is so after [stop_camera], and after a [start_camera]
    that returned [False] because the device did not open. *)
Theorem run_camera_loop_without_camera (σ : store) (s : session)
    (reads : list (option ndarray)) :
  (cap s = None \/ (exists c, cap s = Some c /\ is_opened c = false) ->
   run_camera_loop σ s reads = (σ, marked_running s, LoopLeft))
  /\ run_camera_loop σ (stop_camera s) reads = (σ, marked_running (stop_camera s), LoopLeft)
  /\ (forall cameras : Cameras,
        @device_opens cameras 0 = false ->
        (@start_camera cameras s).2 = false
        /\ run_camera_loop σ (@start_camera cameras s).1 reads
           = (σ, marked_running (@start_camera cameras s).1, LoopLeft)).
Proof.
  split; [|split].
  - intros Hclosed. unfold run_camera_loop. by apply camera_loop_closed.
  - unfold run_camera_loop. apply camera_loop_closed. simpl.
    destruct (cap s) as [c|]; [right | by left]. by exists (cap_release c).
  - intros cameras Hclosed. unfold start_camera, VideoCapture. simpl. rewrite Hclosed. simpl.
    split; [done|]. unfold run_camera_loop. apply camera_loop_closed. simpl.
    right. by eexists.
Qed.

(** X14: on an open camera [run_camera_loop] processes and counts every
    frame read before the first failed read and then leaves, reading no
    further.  It does not release the camera and leaves [is_running] set;
    the arrays that were in the store before are as they were; and a
    history within its capacity stays within it.  While the camera delivers
    frames the loop goes on. *)
Theorem run_camera_loop_until_read_fails (σ : store) (s : session) (c : capture)
    (frames : list ndarray) (rest : list (option ndarray)) :
  cap s = Some c -> is_opened c = true ->
  Forall (fun f => is_empty_image f = false) frames ->
  exists σ' s',
    run_camera_loop σ s ((Some <$> frames) ++ None :: rest) = (σ', s', LoopLeft)
    /\ run_camera_loop σ s (Some <$> frames) = (σ', s', ReadsUsedUp)
    /\ frame_count s' = (frame_count s + Z.of_nat (length frames))%Z
    /\ cap s' = Some c /\ is_running s' = true
    /\ (forall l, is_Some (σ !! l) -> σ' !! l = σ !! l)
    /\ ((length (LiveCameraFER.emotion_history (app s)) <= 100)%nat ->
        (length (LiveCameraFER.emotion_history (app s')) <= 100)%nat).
Proof.
  intros Hcap Hopen Hframes. unfold run_camera_loop.
  set (s0 := Session (cap s) true (frame_count s) (current_frame s) (current_results s) (app s)).
  destruct (camera_loop_frames frames σ s0 c)
    as (σ' & s' & Hloop & Hcount & Hcap' & Hrun' & Hstore & Hhist); try done.
  simpl in Hcap'. rewrite Hcap in Hcap'.
  exists σ', s'. split; [|split].
  - rewrite Hloop. simpl. by rewrite Hrun', Hcap', Hopen.
  - rewrite <- (app_nil_r (Some <$> frames)), Hloop. simpl.
    by rewrite Hrun', Hcap', Hopen.
  - by repeat split.
Qed.

End SessionProperties.

Lemma run_camera_loop_without_camera_witness :
  (@LiveCameraSession.start_camera only_device_2 LiveCameraSession.init).2 = false
  /\ @LiveCameraSession.run_camera_loop demo demo_store
       (@LiveCameraSession.start_camera only_device_2 LiveCameraSession.init).1
       [Some black_frame]
     = (demo_store,
        marked_running (@LiveCameraSession.start_camera only_device_2 LiveCameraSession.init).1,
        LiveCameraSession.LoopLeft).
Proof.
  apply (proj2 (proj2 (@run_camera_loop_without_camera demo demo_store
                         LiveCameraSession.init [Some black_frame])) only_device_2).
  reflexivity.
Defined.

Lemma run_camera_loop_until_read_fails_witness :
  exists σ' s',
    @LiveCameraSession.run_camera_loop demo demo_store open_session
      ((Some <$> [black_frame; black_frame]) ++ None :: [Some black_frame])
    = (σ', s', LiveCameraSession.LoopLeft)
    /\ @LiveCameraSession.run_camera_loop demo demo_store open_session
         (Some <$> [black_frame; black_frame])
       = (σ', s', LiveCameraSession.ReadsUsedUp)
    /\ LiveCameraSession.frame_count s'
       = (LiveCameraSession.frame_count open_session + Z.of_nat (length [black_frame; black_frame]))%Z
    /\ LiveCameraSession.cap s'
       = Some (Capture 0 true
                 [(CAP_PROP_FRAME_WIDTH, 640); (CAP_PROP_FRAME_HEIGHT, 480); (CAP_PROP_FPS, 30)]%Z)
    /\ LiveCameraSession.is_running s' = true
    /\ (forall l, is_Some (demo_store !! l) -> σ' !! l = demo_store !! l)
    /\ ((length (LiveCameraFER.emotion_history (LiveCameraSession.app open_session)) <= 100)%nat ->
        (length (LiveCameraFER.emotion_history (LiveCameraSession.app s')) <= 100)%nat).
Proof.
  apply (@run_camera_loop_until_read_fails demo demo_store open_session
           (Capture 0 true
              [(CAP_PROP_FRAME_WIDTH, 640); (CAP_PROP_FRAME_HEIGHT, 480); (CAP_PROP_FPS, 30)]%Z)
           [black_frame; black_frame] [Some black_frame]).
  - reflexivity.
  - reflexivity.
  - repeat constructor.
Defined.

(** * The camera permission test *)

Lemma filter_out_singleton (i : Z) : filter (fun j => j <> i) [i] = [].
Proof. by rewrite filter_cons_False by (intros Hne; by apply Hne). Qed.

Lemma held_after_app (held : list Z) (calls1 calls2 : list CameraPermissionTest.camera_call) :
  held_after held (calls1 ++ calls2) = held_after (held_after held calls1) calls2.
Proof. unfold held_after. apply fold_left_app. Qed.

Section PermissionTestProperties.
Context `{Cameras}.
Import CameraPermissionTest.

Lemma probe_releases (i : Z) : held_after [] (probe i) = [].
Proof.
  unfold probe, VideoCapture. simpl. destruct (device_opens i); simpl; [|done].
  apply filter_out_singleton.
Qed.

Lemma probes_release (indices : list Z) : held_after [] (concat (probe <$> indices)) = [].
Proof.
  induction indices as [|i indices IH]; csimpl; [done|].
  by rewrite held_after_app, probe_releases.
Qed.

Lemma try_indices_releases (indices : list Z) : held_after [] (try_indices indices).2 = [].
Proof.
  induction indices as [|i indices IH]; simpl; [done|].
  unfold VideoCapture. simpl. destruct (device_opens i); simpl.
  - apply filter_out_singleton.
  - destruct (try_indices indices) as [found calls]. simpl in *. done.
Qed.

Lemma try_indices_found (indices : list Z) :
  match (try_indices indices).1 with
  | Some i =>
      exists before after,
        indices = before ++ i :: after
        /\ device_opens i = true
        /\ Forall (fun j => device_opens j = false) before
  | None => Forall (fun j => device_opens j = false) indices
  end.
Proof.
  induction indices as [|i indices IH]; simpl; [constructor|].
  unfold VideoCapture. simpl. destruct (device_opens i) eqn:Hi; simpl.
  - exists [], indices. by repeat split.
  - destruct (try_indices indices) as [[k|] calls]; simpl in *.
    + destruct IH as (before & after & -> & Hk & Hbefore).
      exists (i :: before), after. split; [done|]. split; [done|]. by constructor.
    + by constructor.
Qed.

(** X15: [test_camera_permissions] returns the least index from 0 to 4
    whose camera opens, and [None] exactly when none of them opens. *)
Theorem test_camera_permissions_index (darwin : bool) :
  match (test_camera_permissions darwin).1 with
  | Some i =>
      (0 <= i <= 4)%Z /\ device_opens i = true
      /\ forall j, (0 <= j < i)%Z -> device_opens j = false
  | None => forall j, (0 <= j <= 4)%Z -> device_opens j = false
  end.
Proof.
  unfold test_camera_permissions, VideoCapture. simpl.
  destruct (device_opens 0) eqn:H0, (device_opens 1) eqn:H1, (device_opens 2) eqn:H2,
    (device_opens 3) eqn:H3, (device_opens 4) eqn:H4; simpl;
    try (split; [lia|]; split; [done|]);
    intros j Hj;
    assert (j = 0 \/ j = 1 \/ j = 2 \/ j = 3 \/ j = 4)%Z
      as [-> | [-> | [-> | [-> | ->]]]] by lia;
    first [done | lia].
Qed.

(** X16: every capture that the tests open is released before they return:
    after [test_opencv_camera], after [test_camera_permissions] and after
    the whole script no device is held. *)
Theorem camera_tests_release (darwin : bool) :
  held_after [] test_opencv_camera.2 = []
  /\ held_after [] (test_camera_permissions darwin).2 = []
  /\ held_after [] (main darwin).2 = [].
Proof.
  assert (Hopencv : held_after [] test_opencv_camera.2 = []).
  { unfold test_opencv_camera, VideoCapture. simpl. by destruct (device_opens 0). }
  assert (Hperm : held_after [] (test_camera_permissions darwin).2 = []).
  { unfold test_camera_permissions.
    set (probes := if darwin then concat (probe <$> [0; 1; 2; 3; 4]%Z) else []).
    assert (Hprobes : held_after [] probes = [])
      by (unfold probes; destruct darwin; [apply probes_release | done]).
    pose proof (try_indices_releases [1; 2; 3; 4]%Z) as Htry.
    unfold VideoCapture. cbn [is_opened].
    destruct (device_opens 0); cbn [negb].
    - cbn [snd]. rewrite held_after_app, Hprobes. reflexivity.
    - destruct (try_indices [1; 2; 3; 4]%Z) as [found calls]. cbn [snd] in *.
      by rewrite held_after_app, Hprobes. }
  split; [done|]. split; [done|]. unfold main.
  destruct test_opencv_camera as [[] calls]; simpl in *; [|done].
  destruct (test_camera_permissions darwin) as [index calls']. simpl in *.
  by rewrite held_after_app, Hopencv.
Qed.

(** X17: run as a script, the test reports index 0 when device 0 opens and
    no index otherwise: the search through the indices 1 to 4 is made only
    when device 0 does not open, and then the script stops at the OpenCV
    test before it. *)
Theorem main_reports_index_0 (darwin : bool) :
  (main darwin).1 = if device_opens 0 then Some 0%Z else None.
Proof.
  unfold main, test_opencv_camera, test_camera_permissions, VideoCapture. simpl.
  by destruct (device_opens 0) eqn:H0; simpl; rewrite ?H0.
Qed.

End PermissionTestProperties.

(** * The camera test *)

Section CameraTestProperties.
Context `{Collaborators} `{Cameras}.

Lemma rounds_app_show (f : ndarray) (log : list CameraTest.effect) :
  forall shown, rounds shown log -> rounds shown (log ++ [CameraTest.Imshow f]).
Proof.
  induction log as [|e log IH]; intros shown Hr; [exact I|].
  destruct e; simpl in *; try done; [by apply IH|].
  destruct Hr as [-> Hr]. split; [done|by apply IH].
Qed.

Lemma rounds_app_save (f : ndarray) (t : Z) (log : list CameraTest.effect) :
  forall shown, rounds shown log ->
    rounds shown (log ++ [CameraTest.Imshow f; CameraTest.Imwrite t f]).
Proof.
  induction log as [|e log IH]; intros shown Hr; [by simpl|].
  destruct e; simpl in *; try done; [by apply IH|].
  destruct Hr as [-> Hr]. split; [done|by apply IH].
Qed.

Lemma test_loop_rounds (start_time : Q) (inputs : list (option ndarray * Z)) :
  forall σ st, rounds None (CameraTest.effects st) ->
    rounds None (CameraTest.effects (CameraTest.test_loop σ start_time st inputs).1.2).
Proof.
  induction inputs as [|[[f|] w] inputs IH]; intros σ st Hr; simpl; try done.
  destruct (FEREngine.process_frame _ _) as [σ' [[pf results]|e]]; simpl; [|done].
  destruct (_ && _); simpl; [done|].
  destruct (_ =? 113)%Z; simpl; [by apply rounds_app_show|].
  destruct (_ =? 115)%Z.
  - apply IH. simpl. rewrite <- app_assoc. by apply rounds_app_save.
  - apply IH. simpl. by apply rounds_app_show.
Qed.

Lemma shows_app (log1 log2 : list CameraTest.effect) :
  shows (log1 ++ log2) = (shows log1 + shows log2)%nat.
Proof.
  induction log1 as [|e log1 IH]; [done|]. destruct e; simpl; by rewrite ?IH.
Qed.

(** Where the loop ends: at the first round that stops it, unless an
    exception ends it in an earlier round; one frame is shown per round
    that got as far as the display. *)
Lemma test_loop_stops (start_time : Q) (inputs : list (option ndarray * Z)) :
  forall σ st,
    let run := CameraTest.test_loop σ start_time st inputs in
    match run.2 with
    | CameraTest.Break =>
        exists before round after,
          inputs = before ++ round :: after
          /\ Forall (fun r => stops r = false) before
          /\ stops round = true
          /\ shows (CameraTest.effects run.1.2)
             = (shows (CameraTest.effects st) + length before
                + match round.1 with Some _ => 1 | None => 0 end)%nat
    | CameraTest.Raised _ =>
        exists before round after,
          inputs = before ++ round :: after
          /\ Forall (fun r => stops r = false) before
          /\ round.1 <> None
          /\ shows (CameraTest.effects run.1.2)
             = (shows (CameraTest.effects st) + length before)%nat
    | CameraTest.InputsUsedUp =>
        Forall (fun r => stops r = false) inputs
        /\ shows (CameraTest.effects run.1.2)
           = (shows (CameraTest.effects st) + length inputs)%nat
    end.
Proof.
  induction inputs as [|[[f|] w] inputs IH]; intros σ st; simpl.
  - split; [constructor | lia].
  - destruct (FEREngine.process_frame _ _) as [σ' [[pf results]|e]]; simpl.
    + destruct (_ && _); simpl.
      { exists [], (Some f, w), inputs. simpl. repeat (split; [done|]). lia. }
      destruct (Z.land w 255 =? 113)%Z eqn:Hq; simpl.
      { exists [], (Some f, w), inputs. simpl. split; [done|]. split; [done|].
        split; [done|]. rewrite shows_app. simpl. lia. }
      assert (Hgo : stops (Some f, w) = false) by done.
      set (shown := default [] (σ' !! pf)).
      set (calls := if (_ =? 0)%Z then _ else _).
      assert (Hstep : forall st',
                shows (CameraTest.effects st')
                = S (shows (CameraTest.effects st)) ->
                let run := CameraTest.test_loop σ' start_time st' inputs in
                match run.2 with
                | CameraTest.Break =>
                    exists before round after,
                      (Some f, w) :: inputs = before ++ round :: after
                      /\ Forall (fun r => stops r = false) before
                      /\ stops round = true
                      /\ shows (CameraTest.effects run.1.2)
                         = (shows (CameraTest.effects st) + length before
                            + match round.1 with Some _ => 1 | None => 0 end)%nat
                | CameraTest.Raised _ =>
                    exists before round after,
                      (Some f, w) :: inputs = before ++ round :: after
                      /\ Forall (fun r => stops r = false) before
                      /\ round.1 <> None
                      /\ shows (CameraTest.effects run.1.2)
                         = (shows (CameraTest.effects st) + length before)%nat
                | CameraTest.InputsUsedUp =>
                    Forall (fun r => stops r = false) ((Some f, w) :: inputs)
                    /\ shows (CameraTest.effects run.1.2)
                       = (shows (CameraTest.effects st) + length ((Some f, w) :: inputs))%nat
                end).
      { intros st' Hst'. specialize (IH σ' st'). simpl in IH |- *.
        destruct (CameraTest.test_loop σ' start_time st' inputs) as [[σ'' st''] ending].
        simpl in *. destruct ending as [|e|].
        - destruct IH as (before & round & after & -> & Hbefore & Hround & Hshows).
          exists ((Some f, w) :: before), round, after. simpl.
          split; [done|]. split; [by constructor|]. split; [done|]. lia.
        - destruct IH as (before & round & after & -> & Hbefore & Hround & Hshows).
          exists ((Some f, w) :: before), round, after. simpl.
          split; [done|]. split; [by constructor|]. split; [done|]. lia.
        - destruct IH as [Hall Hshows]. split; [by constructor | lia]. }
      destruct (Z.land w 255 =? 115)%Z; apply Hstep; simpl;
        rewrite ?shows_app; simpl; lia.
    + exists [], (Some f, w), inputs. simpl. repeat (split; [done|]). lia.
  - exists [], (None, w), inputs. simpl. repeat (split; [done|]). lia.
Qed.

Lemma test_loop_division (start_time : Q) (inputs : list (option ndarray * Z)) :
  forall σ st,
    (CameraTest.test_loop σ start_time st inputs).2
    = CameraTest.Raised CameraTest.ZeroDivisionError ->
    exists n, (CameraTest.time_calls st <= n)%nat /\ time_time n == start_time.
Proof.
  induction inputs as [|[[f|] w] inputs IH]; intros σ st Hend; simpl in *; try done.
  destruct (FEREngine.process_frame _ _) as [σ' [[pf results]|e]]; simpl in *; [|done].
  destruct (_ && Qeq_bool _ _) eqn:Hdiv; simpl in *.
  - apply andb_prop in Hdiv as [_ Hz]. apply Qeq_bool_eq in Hz.
    exists (CameraTest.time_calls st). split; [lia|lra].
  - destruct (_ =? 113)%Z; simpl in *; [done|].
    destruct (_ =? 115)%Z; apply IH in Hend as (n & Hn & Ht); simpl in Hn;
      exists n; (split; [|done]); destruct (_ =? 0)%Z; lia.
Qed.

(** X18: when the camera does not open, [test_camera]
    does nothing, and releases nothing.  When it opens, every way out
    of the loop ([break] or an exception) ends with the release of the
    camera followed by the closing of the windows, exactly once and last;
    before that the test only shows frames and saves them, and each frame
    saved is the frame shown just before. *)
Theorem test_camera_cleanup (σ : store) (inputs : list (option ndarray * Z)) :
  match CameraTest.test_camera σ inputs with
  | (log, None) => device_opens 0 = false /\ log = []
  | (log, Some CameraTest.InputsUsedUp) => device_opens 0 = true /\ rounds None log
  | (log, Some _) =>
      device_opens 0 = true /\
      exists body,
        log = body ++ [CameraTest.CapRelease; CameraTest.DestroyAllWindows] /\
        rounds None body
  end.
Proof.
  unfold CameraTest.test_camera. simpl.
  destruct (device_opens 0) eqn:Hopen; simpl; [|done].
  pose proof (test_loop_rounds (time_time 0) inputs σ (CameraTest.LoopState 0 1 []) I) as Hr.
  destruct (CameraTest.test_loop _ _ _ _) as [[σ' st] ending]. simpl in Hr.
  destruct ending; (split; [done|]); eauto.
Qed.

(** X19: [test_camera] leaves its loop by [break] at the first round in
    which the read fails or the key, cut to its low 8 bits, is q, and at no
    other round; an exception can only end it in a round before that one.
    It has then shown one frame per round before that round, and the
    frame of that round too when it was the key that ended the test. *)
Theorem test_camera_stops (σ : store) (inputs : list (option ndarray * Z)) :
  match CameraTest.test_camera σ inputs with
  | (log, Some CameraTest.Break) =>
      exists before round after,
        inputs = before ++ round :: after
        /\ Forall (fun r => stops r = false) before
        /\ stops round = true
        /\ shows log = (length before + match round.1 with Some _ => 1 | None => 0 end)%nat
  | (log, Some (CameraTest.Raised _)) =>
      exists before round after,
        inputs = before ++ round :: after
        /\ Forall (fun r => stops r = false) before
        /\ round.1 <> None
        /\ shows log = length before
  | (log, Some CameraTest.InputsUsedUp) =>
      Forall (fun r => stops r = false) inputs /\ shows log = length inputs
  | (log, None) => device_opens 0 = false
  end.
Proof.
  unfold CameraTest.test_camera. simpl.
  destruct (device_opens 0); simpl; [|done].
  pose proof (test_loop_stops (time_time 0) inputs σ (CameraTest.LoopState 0 1 [])) as Hs.
  simpl in Hs.
  destruct (CameraTest.test_loop _ _ _ _) as [[σ' st] ending]. simpl in *.
  destruct ending as [|e|]; [| |done];
    destruct Hs as (before & round & after & -> & Hbefore & Hround & Hshows);
    exists before, round, after; rewrite shows_app; simpl;
    (split; [done|]); (split; [done|]); (split; [done|]); lia.
Qed.

(** X20: in [test_camera] the division of the frame count by
    the elapsed time in the loop is not guarded.  The test ends with a
    division by zero only if a later reading of the clock gave the value of
    the first one. *)
Theorem test_camera_division (σ : store) (inputs : list (option ndarray * Z)) :
  match (CameraTest.test_camera σ inputs).2 with
  | Some (CameraTest.Raised CameraTest.ZeroDivisionError) =>
      exists n, (0 < n)%nat /\ time_time n == time_time 0
  | _ => True
  end.
Proof.
  unfold CameraTest.test_camera. simpl.
  destruct (device_opens 0); simpl; [|done].
  pose proof (test_loop_division (time_time 0) inputs σ (CameraTest.LoopState 0 1 [])) as Hd.
  destruct (CameraTest.test_loop _ _ _ _) as [[σ' st] ending]. simpl in *.
  destruct ending as [|[e|]|]; simpl; try done.
  destruct Hd as (n & Hn & Ht); [done|]. exists n. split; [lia|done].
Qed.

End CameraTestProperties.

(** With a clock that stands still the thirtieth frame ends the test with
    the division by zero, after twenty-nine frames were shown, and the
    camera is released. *)
Example test_camera_stuck_clock :
  let run := @CameraTest.test_camera demo_stuck device_0_works demo_store
               (replicate 40 (Some black_frame, 0%Z)) in
  run.2 = Some (CameraTest.Raised CameraTest.ZeroDivisionError) /\
  length run.1 = 31%nat /\
  drop 29 run.1 = [CameraTest.CapRelease; CameraTest.DestroyAllWindows].
Proof. by vm_compute. Qed.
